(** * ESP8266 dual-sensor demo: a shallow embedding of the measurement cycle

    Sources: [main.cpp] (check_switch, read_sensor_1, read_sensor_2,
    transmit, read_time, promptTimeZone, loop), [getTImeAPI.cpp]
    (ensureWifi, getTimeIsoUtc), [sendRequest.cpp] (urlEncode,
    postToServer), [Led.h]/[Led.cpp] (class Led) and the LEDBLINK sketch.

    Platform conventions used throughout:
    - [unsigned long] on the ESP8266 is 32 bits; [millis()] is the real
      elapsed time in ms reduced modulo 2^32, and unsigned subtraction wraps.
    - [time_t] is the 64-bit newlib type; clock readings are far from its
      bounds and are kept as [Z].
    - [float] is IEEE-754 binary32, modelled with Corelib's [SpecFloat]
      (precision 24, emax 128, round to nearest even). *)

From Stdlib Require Import ZArith Lia Bool List String Ascii DecimalString.
From Stdlib Require Import Floats.SpecFloat QArith Qabs.
Import ListNotations.
Open Scope Z_scope.

(** ** Unsigned 32-bit arithmetic *)

Definition ULONG_MOD : Z := 2 ^ 32.

(** [a - b] on [unsigned long]. *)
Definition ul_sub (a b : Z) : Z := (a - b) mod ULONG_MOD.

(** [millis()] at real time [t] (ms since boot). *)
Definition millis (t : Z) : Z := t mod ULONG_MOD.

(** ** check_switch (main.cpp) *)

Inductive NodeSel := NODE_NONE | NODE_ULTRA | NODE_SOUND.

Definition NodeSel_eqb (a b : NodeSel) : bool :=
  match a, b with
  | NODE_NONE, NODE_NONE | NODE_ULTRA, NODE_ULTRA
  | NODE_SOUND, NODE_SOUND => true
  | _, _ => false
  end.

Definition DEBOUNCE : Z := 250.

(** The two global debounce timestamps. *)
Record Debounce := mkDebounce { lastUltraMs : Z; lastSoundMs : Z }.

Definition debounce_init : Debounce := mkDebounce 0 0.

(** One poll: the two button levels already decoded as "pressed"
    ([digitalRead(..) == LOW]) and the real time of the [millis()] call. *)
Record Poll := mkPoll { ultraPressed : bool; soundPressed : bool; poll_time : Z }.

Definition check_switch (st : Debounce) (p : Poll) : NodeSel * Debounce :=
  let now := millis (poll_time p) in
  if ultraPressed p && (DEBOUNCE <? ul_sub now (lastUltraMs st)) then
    (NODE_ULTRA, mkDebounce now (lastSoundMs st))
  else if soundPressed p && (DEBOUNCE <? ul_sub now (lastSoundMs st)) then
    (NODE_SOUND, mkDebounce (lastUltraMs st) now)
  else (NODE_NONE, st).

(** The polling loop: successive calls of [check_switch], with their results. *)
Fixpoint run_polls (st : Debounce) (ps : list Poll) : list NodeSel * Debounce :=
  match ps with
  | [] => ([], st)
  | p :: ps' =>
      let '(r, st1) := check_switch st p in
      let '(rs, st2) := run_polls st1 ps' in
      (r :: rs, st2)
  end.

(** The two input signals and the request each one produces. *)
Inductive Signal := SigUltra | SigSound.

Definition request_of (s : Signal) : NodeSel :=
  match s with SigUltra => NODE_ULTRA | SigSound => NODE_SOUND end.

Definition last_fired (s : Signal) (st : Debounce) : Z :=
  match s with SigUltra => lastUltraMs st | SigSound => lastSoundMs st end.

(** ** binary32 [float] *)

Definition prec32 : Z := 24.
Definition emax32 : Z := 128.

Definition float := spec_float.

Definition f_mul (x y : float) : float := SFmul prec32 emax32 x y.
Definition f_div (x y : float) : float := SFdiv prec32 emax32 x y.
Definition f_sub (x y : float) : float := SFsub prec32 emax32 x y.
Definition f_lt (x y : float) : bool := SFltb x y.
Definition f_abs (x : float) : float := SFabs x.

(** Conversion of an integer to [float] (rounded to nearest even). *)
Definition f_of_Z (n : Z) : float := binary_normalize prec32 emax32 n 0 false.

(** [isfinite] *)
Definition f_isfinite (x : float) : bool :=
  match x with S754_zero _ | S754_finite _ _ _ => true | _ => false end.

(** The quiet NaN produced by [NAN]. *)
Definition NAN : float := S754_nan.

(** ** Decimal rendering helpers *)

Open Scope string_scope.

Definition dec_of_N (n : N) : string := NilEmpty.string_of_uint (N.to_uint n).

(** [n] in decimal, left-padded with '0' to at least [w] digits. *)
Fixpoint pad_zeros (w : nat) (s : string) : string :=
  match w with
  | O => s
  | S w' => if (w <=? String.length s)%nat then s else pad_zeros w' ("0" ++ s)
  end.

Definition dec_pad (w : nat) (n : N) : string := pad_zeros w (dec_of_N n).

(** [String(x, 2)]: the Arduino core calls [dtostrf(x, 4, 2, buf)]:
    "nan" and "inf" for the non-finite values, otherwise an optional '-',
    the integer part and two decimals, rounded half up at the hundredths
    (the core adds 0.005 before truncating). *)
Definition String_float2 (x : float) : string :=
  match x with
  | S754_nan => "nan"
  | S754_infinity _ => "inf"
  | S754_zero _ => "0.00"
  | S754_finite s m e =>
      let cents : Z :=
        if (0 <=? e)%Z then (Zpos m * 100 * 2 ^ e)%Z
        else ((2 * Zpos m * 100 + 2 ^ (- e)) / (2 * 2 ^ (- e)))%Z in
      let c := Z.to_N cents in
      (if s then "-" else "") ++ dec_of_N (c / 100) ++ "." ++ dec_pad 2 (c mod 100)
  end.

(** ** urlEncode (sendRequest.cpp) *)

(** [isalnum] in the "C" locale, on the byte value. *)
Definition isalnum (c : ascii) : bool :=
  let n := N_of_ascii c in
  (((48 <=? n) && (n <=? 57)) || ((65 <=? n) && (n <=? 90)) ||
   ((97 <=? n) && (n <=? 122)))%N.

Definition unreserved (c : ascii) : bool :=
  isalnum c || (c =? "-")%char || (c =? "_")%char || (c =? ".")%char
  || (c =? "~")%char.

Definition hex : string := "0123456789ABCDEF".

Definition hex_at (i : N) : ascii :=
  match String.get (N.to_nat i) hex with Some c => c | None => "?"%char end.

Fixpoint urlEncode (s : string) : string :=
  match s with
  | EmptyString => EmptyString
  | String c s' =>
      let n := N_of_ascii c in
      if unreserved c then String c (urlEncode s')
      else String "%" (String (hex_at (N.land (N.shiftr n 4) 15))
                         (String (hex_at (N.land n 15)) (urlEncode s')))
  end.

(** The percent-encoding as the specification words it: unreserved
    characters pass through, any other byte [b] becomes '%' and the two
    uppercase hexadecimal digits of [b]. *)
Definition upper_hex_digit (d : N) : ascii :=
  if (d <? 10)%N then ascii_of_N (48 + d) else ascii_of_N (55 + d).

Fixpoint percent_encode_spec (s : string) : string :=
  match s with
  | EmptyString => EmptyString
  | String c s' =>
      (if unreserved c then String c EmptyString
       else String "%" (String (upper_hex_digit (N_of_ascii c / 16))
                          (String (upper_hex_digit (N_of_ascii c mod 16)) EmptyString)))
      ++ percent_encode_spec s'
  end.

(** ** postToServer (sendRequest.cpp) *)

(** The form body built by [postToServer]. *)
Definition form_body (nodeName isoUtc tzRegion : string)
    (distance_cm sound_db : float) : string :=
  "node_name=" ++ urlEncode nodeName ++
  "&measured_iso=" ++ urlEncode isoUtc ++
  "&tz_region=" ++ urlEncode tzRegion ++
  "&distance_cm=" ++ String_float2 distance_cm ++
  "&sound_db=" ++ String_float2 sound_db.

(** What [https.POST(body)] yields: a response with its status line and
    payload, or one of HTTPClient's negative [HTTPC_ERROR_*] codes
    (connection refused, send failure, read timeout, ...). *)
Inductive PostOutcome :=
  | HttpResponse (status : positive) (payload : string)
  | HttpError (err : positive).

(** The network as [postToServer] sees it. *)
Record HttpEnv := mkHttpEnv {
  http_begin : string -> bool;          (* https.begin(client, url) *)
  http_post : string -> PostOutcome     (* https.POST(body) *)
}.

(** [https.POST] and [https.getString] *)
Definition post_code (o : PostOutcome) : Z :=
  match o with HttpResponse st _ => Zpos st | HttpError e => Zneg e end.

Definition post_payload (o : PostOutcome) : string :=
  match o with HttpResponse _ pl => pl | HttpError _ => "" end.

(** The two out-parameters [httpCodeOut] and [bodyOut]. *)
Record PostOuts := mkPostOuts { httpCodeOut : Z; bodyOut : string }.

Definition postToServer (env : HttpEnv) (baseUrl path nodeName isoUtc tzRegion : string)
    (distance_cm sound_db : float) (outs : PostOuts) : bool * PostOuts :=
  let outs := mkPostOuts 0 "" in
  let full := baseUrl ++ path in
  if negb (http_begin env full) then (false, outs)
  else
    let body := form_body nodeName isoUtc tzRegion distance_cm sound_db in
    let o := http_post env body in
    let outs := mkPostOuts (post_code o) (post_payload o) in
    ((0 <? httpCodeOut outs)%Z, outs).

(** ** transmit (main.cpp) *)

Definition SERVER_BASE : string := "https://markpulido.io/api".
Definition POST_PATH : string := "/ingest.php".
Definition nodeUltraName : string := "Ultrasonic_Sensor".
Definition nodeSoundName : string := "Sound_Sensor_MAX4466".

(** [code] and [resp] are uninitialised locals: any values. *)
Definition transmit (env : HttpEnv) (tzRegion : string) (who : NodeSel)
    (isoUtc : string) (dist_cm sound_db : float) (code0 : Z) (resp0 : string) : bool :=
  let node := if NodeSel_eqb who NODE_ULTRA then nodeUltraName else nodeSoundName in
  let '(ok, outs) := postToServer env SERVER_BASE POST_PATH node isoUtc tzRegion
                       dist_cm sound_db (mkPostOuts code0 resp0) in
  ok && (200 <=? httpCodeOut outs)%Z && (httpCodeOut outs <? 300)%Z.

Close Scope string_scope.

(** A network on which [https.begin] fails. *)
Definition env_no_connection : HttpEnv :=
  mkHttpEnv (fun _ => false) (fun _ => HttpError 1%positive).

(** ** gmtime and strftime (newlib) *)

(** The fields of [struct tm] that the format uses. *)
Record tm := mkTm {
  tm_year : Z;  (* years since 1900 *)
  tm_mon : Z;   (* 0 .. 11 *)
  tm_mday : Z;  (* 1 .. 31 *)
  tm_hour : Z; tm_min : Z; tm_sec : Z }.

(** Proleptic Gregorian date of a day count since 1970-01-01:
    (year, month 1..12, day 1..31). *)
Definition civil_from_days (days : Z) : Z * Z * Z :=
  let z := days + 719468 in
  let era := z / 146097 in
  let doe := z - era * 146097 in
  let yoe := (doe - doe / 1460 + doe / 36524 - doe / 146096) / 365 in
  let doy := doe - (365 * yoe + yoe / 4 - yoe / 100) in
  let mp := (5 * doy + 2) / 153 in
  let d := doy - (153 * mp + 2) / 5 + 1 in
  let m := if mp <? 10 then mp + 3 else mp - 9 in
  let y := yoe + era * 400 + (if m <=? 2 then 1 else 0) in
  (y, m, d).

Definition gmtime (t : Z) : tm :=
  let days := t / 86400 in
  let secs := t mod 86400 in
  let '(y, m, d) := civil_from_days days in
  mkTm (y - 1900) (m - 1) d (secs / 3600) ((secs mod 3600) / 60) (secs mod 60).

Open Scope string_scope.

(** [strftime(buf, 32, "%Y-%m-%dT%H:%M:%S", t)] for years 0 .. 9999. *)
Definition strftime_iso (t : tm) : string :=
  dec_pad 4 (Z.to_N (tm_year t + 1900)) ++ "-" ++
  dec_pad 2 (Z.to_N (tm_mon t + 1)) ++ "-" ++
  dec_pad 2 (Z.to_N (tm_mday t)) ++ "T" ++
  dec_pad 2 (Z.to_N (tm_hour t)) ++ ":" ++
  dec_pad 2 (Z.to_N (tm_min t)) ++ ":" ++
  dec_pad 2 (Z.to_N (tm_sec t)).

Close Scope string_scope.

(** ** ensureWifi and getTimeIsoUtc (getTImeAPI.cpp) *)

(** The two compile-time macros. *)
Record TimeConfig := mkTimeConfig { NTP_ADD_HOURS : Z; APPEND_Z : bool }.

Definition default_config : TimeConfig := mkTimeConfig (-8) false.

(** What the time resolver observes: [WiFi.status() == WL_CONNECTED] and
    [time(nullptr)] as functions of the real time in ms, and the real time
    at which [getTimeIsoUtc] is called. Time advances by the [delay]s. *)
Record TimeEnv := mkTimeEnv {
  wifi_connected : Z -> bool;
  clock : Z -> Z;
  t_start : Z }.

Definition WIFI_TIMEOUT : Z := 8000.
Definition WIFI_POLL : Z := 300.
Definition SNTP_TIMEOUT : Z := 12000.
Definition SNTP_POLL : Z := 250.
Definition MIN_VALID : Z := 1609459200.

(** [while (millis() - t0 < ms) { if (connected) return true; delay(300); }]
    Returns the real time at which the connection was seen. *)
Fixpoint ensureWifi_loop (env : TimeEnv) (fuel : nat) (ms t0 t : Z) : option Z :=
  match fuel with
  | O => None
  | S f =>
      if ul_sub (millis t) (millis t0) <? ms then
        if wifi_connected env t then Some t
        else ensureWifi_loop env f ms t0 (t + WIFI_POLL)
      else None
  end.

(** Enough iterations for the loop to end on its condition. *)
Definition loop_fuel (ms step : Z) : nat := Z.to_nat (ms / step) + 2.

Definition ensureWifi (env : TimeEnv) (ms t : Z) : option Z :=
  if wifi_connected env t then Some t
  else ensureWifi_loop env (loop_fuel ms WIFI_POLL) ms t t.

(** [while ((millis() - t0) < 12000) { now = time(nullptr);
    if (now > MIN_VALID) break; delay(250); }]: the last [now]. *)
Fixpoint sntp_wait (env : TimeEnv) (fuel : nat) (t0 t now : Z) : Z :=
  match fuel with
  | O => now
  | S f =>
      if ul_sub (millis t) (millis t0) <? SNTP_TIMEOUT then
        let now := clock env t in
        if MIN_VALID <? now then now
        else sntp_wait env f t0 (t + SNTP_POLL) now
      else now
  end.

(** [long] is 32 bits on the ESP8266. The macro product is folded by the
    compiler; it is well defined when it fits. *)
Definition LONG_MIN : Z := - 2 ^ 31.
Definition LONG_MAX : Z := 2 ^ 31 - 1.
Definition long_wrap (x : Z) : Z := (x - LONG_MIN) mod 2 ^ 32 + LONG_MIN.

(** [tzRegion] is unnamed in the source and not used. *)
Definition getTimeIsoUtc (cfg : TimeConfig) (env : TimeEnv) (tzRegion : string)
    : bool * string :=
  let outIso := EmptyString in
  match ensureWifi env WIFI_TIMEOUT (t_start env) with
  | None => (false, outIso)
  | Some t =>
      let now := sntp_wait env (loop_fuel SNTP_TIMEOUT SNTP_POLL) t t 0 in
      if now <=? MIN_VALID then (false, outIso)
      else
        let offsetSec := long_wrap (NTP_ADD_HOURS cfg * 3600) in
        let shifted := now + offsetSec in
        let buf := strftime_iso (gmtime shifted) in
        (true, if APPEND_Z cfg then String.append buf "Z" else buf)
  end.

(** [read_time] in main.cpp *)
Definition read_time (cfg : TimeConfig) (env : TimeEnv) (tzRegion : string) : bool * string :=
  getTimeIsoUtc cfg env tzRegion.

(** An environment with Wi-Fi up and the clock at 1700000000. *)
Definition env_clock_1700000000 : TimeEnv :=
  mkTimeEnv (fun _ => true) (fun _ => 1700000000) 5000.

(** ** read_sensor_1 (main.cpp) *)

(** The float literals [0.0343f], [2.0f], [512.0f], [1.0f], [20.0f], [0.0f]. *)
Definition f_0_0343 : float := S754_finite false 9207336 (-28).
Definition f_2_0 : float := S754_finite false 8388608 (-22).
Definition f_512_0 : float := S754_finite false 8388608 (-14).
Definition f_1_0 : float := S754_finite false 8388608 (-23).
Definition f_20_0 : float := S754_finite false 10485760 (-19).
Definition f_0_0 : float := S754_zero false.

(** The echo seen by [pulseIn(PIN_ECHO, HIGH, timeout)]: the time (us) from
    the call to the rising edge and the width of the HIGH pulse. [pulseIn]
    returns the width, or 0 when the pulse has not ended within the timeout
    counted from the call. *)
Record Echo := mkEcho { echo_rise : Z; echo_width : Z }.

Definition pulseIn (e : Echo) (timeout : Z) : Z :=
  if (0 <=? echo_rise e) && (0 <? echo_width e)
     && (echo_rise e + echo_width e <=? timeout)
  then echo_width e else 0.

Definition read_sensor_1 (e : Echo) : float :=
  let duration := pulseIn e 30000 in
  if duration =? 0 then NAN
  else
    let cm := f_div (f_mul (f_of_Z duration) f_0_0343) f_2_0 in
    cm.

(** The value of a finite float as a rational. *)
Definition float_value (x : float) : option Q :=
  match x with
  | S754_zero _ => Some 0%Q
  | S754_finite s m e =>
      let q := if 0 <=? e then inject_Z (Zpos m * 2 ^ e) else Zpos m # Z.to_pos (2 ^ (- e)) in
      Some (if s then Qopp q else q)
  | _ => None
  end.

(** [D * 0.0343 / 2] as an exact rational. *)
Definition distance_exact (D : Z) : Q := (D * 343 # 20000)%Q.

(** Relative error bound 2^-23. *)
Definition within_tol (x : float) (D : Z) : bool :=
  match float_value x with
  | Some q => Qle_bool (Qabs (q - distance_exact D)) (distance_exact D * (1 # 8388608))
  | None => false
  end.

(** ** read_sensor_2 (main.cpp) *)

(** [std::max(a, b)] is [(a < b) ? b : a]. *)
Definition f_max (a b : float) : float := if f_lt a b then b else a.

(** [log10f] comes from libm and [analogRead(PIN_SOUND)] from the ADC: the
    [i]-th call returns [analog i]. *)
Definition read_sensor_2 (log10f : float -> float) (analog : nat -> Z) : float :=
  let N := 200%nat in
  let sum := fold_left (fun acc i => acc + analog i) (seq 0 N) 0 in
  let adc := f_div (f_of_Z sum) (f_of_Z (Z.of_nat N)) in
  let level := f_abs (f_sub adc f_512_0) in
  let db := f_mul f_20_0 (log10f (f_max level f_1_0)) in
  let db := if negb (f_isfinite db) then f_0_0 else db in
  db.

(** A stand-in [log10f] exact on the powers of ten 1, 10, 100. *)
Definition log10f_small (x : float) : float :=
  if SFeqb x f_1_0 then S754_zero false
  else if SFeqb x (f_of_Z 10) then f_1_0
  else if SFeqb x (f_of_Z 100) then f_2_0
  else S754_nan.

(** A string made only of unreserved characters. *)
Fixpoint all_unreserved (s : string) : bool :=
  match s with EmptyString => true | String c s' => (unreserved c && all_unreserved s')%bool end.

(** [start, start + 1, ..., start + n - 1] *)
Fixpoint zseq (start : Z) (n : nat) : list Z :=
  match n with O => [] | S n' => start :: zseq (start + 1) n' end.

(** ** The receiving side of the form body

    An [application/x-www-form-urlencoded] reader as the server runs it:
    split at '&', split each pair at its first '=', decode '+' as a space
    and "%HH" as the byte [HH]. It is not part of the sketch; it states
    what the encoding of [postToServer] guarantees. *)

Open Scope string_scope.

Definition hex_val (c : ascii) : option N :=
  let n := N_of_ascii c in
  if ((48 <=? n) && (n <=? 57))%N then Some (n - 48)%N
  else if ((65 <=? n) && (n <=? 70))%N then Some (n - 55)%N
  else if ((97 <=? n) && (n <=? 102))%N then Some (n - 87)%N
  else None.

Fixpoint form_decode (s : string) : option string :=
  match s with
  | EmptyString => Some EmptyString
  | String "%" (String h1 (String h2 s')) =>
      match hex_val h1, hex_val h2, form_decode s' with
      | Some a, Some b, Some r => Some (String (ascii_of_N (16 * a + b)) r)
      | _, _, _ => None
      end
  | String "%" _ => None
  | String "+" s' => option_map (String " ") (form_decode s')
  | String c s' => option_map (String c) (form_decode s')
  end.

Fixpoint split_on (sep : ascii) (s : string) : list string :=
  match s with
  | EmptyString => [EmptyString]
  | String c s' =>
      let r := split_on sep s' in
      if (c =? sep)%char then EmptyString :: r
      else match r with
           | [] => [String c EmptyString]
           | h :: t => String c h :: t
           end
  end.

Fixpoint split_first (sep : ascii) (s : string) : string * string :=
  match s with
  | EmptyString => (EmptyString, EmptyString)
  | String c s' =>
      if (c =? sep)%char then (EmptyString, s')
      else let '(k, v) := split_first sep s' in (String c k, v)
  end.

Definition parse_form (body : string) : list (string * option string) :=
  map (fun kv => let '(k, v) := split_first "=" kv in (k, form_decode v))
      (split_on "&" body).

Fixpoint no_char (sep : ascii) (s : string) : bool :=
  match s with
  | EmptyString => true
  | String c s' => negb (c =? sep)%char && no_char sep s'
  end.

(** Every character is unreserved or '%'. *)
Fixpoint encoded_alphabet (s : string) : bool :=
  match s with
  | EmptyString => true
  | String c s' => (unreserved c || (c =? "%")%char) && encoded_alphabet s'
  end.

(** Number of characters that [urlEncode] escapes. *)
Fixpoint reserved_count (s : string) : nat :=
  match s with
  | EmptyString => O
  | String c s' => ((if unreserved c then 0 else 1) + reserved_count s')%nat
  end.

Close Scope string_scope.

(** ** One pass of loop() (main.cpp)

    The inputs of one call of [loop()]: the button poll, the echo seen by
    the ultrasonic sensor, the microphone samples, the time resolver's
    environment, and the values of [transmit]'s uninitialised locals. *)
Record LoopIn := mkLoopIn {
  li_poll : Poll;
  li_echo : Echo;
  li_analog : nat -> Z;
  li_time : TimeEnv;
  li_code0 : Z;
  li_resp0 : string }.

(** What one pass does: nothing (no button accepted), stop after a failed
    time fetch, or transmit, with [transmit]'s result. *)
Inductive LoopOutcome := LoopIdle | LoopNoTime | LoopSent (ok : bool).

Definition loop_iter (cfg : TimeConfig) (log10f : float -> float) (henv : HttpEnv)
    (tzRegion : string) (st : Debounce) (li : LoopIn) : LoopOutcome * Debounce :=
  let '(who, st1) := check_switch st (li_poll li) in
  if NodeSel_eqb who NODE_NONE then (LoopIdle, st1)
  else
    let dist_cm := f_0_0 in
    let sound_db := f_0_0 in
    let '(dist_cm, sound_db) :=
      if NodeSel_eqb who NODE_ULTRA then (read_sensor_1 (li_echo li), f_0_0)
      else (f_0_0, read_sensor_2 log10f (li_analog li)) in
    let '(ok_time, isoUtc) := read_time cfg (li_time li) tzRegion in
    if negb ok_time then (LoopNoTime, st1)
    else (LoopSent (transmit henv tzRegion who isoUtc dist_cm sound_db
                      (li_code0 li) (li_resp0 li)), st1).

(** ** promptTimeZone (main.cpp) *)

Open Scope string_scope.

Definition tzRegion_default : string := "America/Los_Angeles".

(** [isspace] in the "C" locale: space, \t, \n, \v, \f, \r. *)
Definition isspace (c : ascii) : bool :=
  let n := N_of_ascii c in ((n =? 32) || ((9 <=? n) && (n <=? 13)))%N.

Fixpoint ltrim (s : string) : string :=
  match s with
  | EmptyString => EmptyString
  | String c s' => if isspace c then ltrim s' else s
  end.

(** Drop the trailing whitespace. *)
Fixpoint rtrim (s : string) : string :=
  match s with
  | EmptyString => EmptyString
  | String c s' =>
      let r := rtrim s' in
      match r with
      | EmptyString => if isspace c then EmptyString else String c EmptyString
      | _ => String c r
      end
  end.

(** Arduino's [String::trim]: skip the leading whitespace, then move the
    end back over the trailing whitespace. *)
Definition trim (s : string) : string := rtrim (ltrim s).

Definition is_eol (c : ascii) : bool := (c =? "013")%char || (c =? "010")%char.

(** The bytes typed on the serial line, with the real time (ms) at which
    each one arrives in the receive buffer, in order. *)
Definition SerialIn := list (Z * ascii).

(** [while (millis() - t0 < 10000) { if (Serial.available()) { char c =
    Serial.read(); if (c=='\r' || c=='\n') break; input += c; } delay(10); }]
    Returns the input collected and the bytes left unread. *)
Fixpoint prompt_loop (fuel : nat) (t0 t : Z) (q : SerialIn) (input : string)
    : string * SerialIn :=
  match fuel with
  | O => (input, q)
  | S f =>
      if (ul_sub (millis t) (millis t0) <? 10000)%Z then
        match q with
        | (a, c) :: q' =>
            if (a <=? t)%Z then
              if is_eol c then (input, q')
              else prompt_loop f t0 (t + 10)%Z q' (input ++ String c EmptyString)
            else prompt_loop f t0 (t + 10)%Z q input
        | [] => prompt_loop f t0 (t + 10)%Z q input
        end
      else (input, q)
  end.

(** [promptTimeZone()] called at real time [t0] with [tzRegion] holding
    [tz]: the new value of [tzRegion]. *)
Definition promptTimeZone (tz : string) (q : SerialIn) (t0 : Z) : string :=
  let '(input, _) := prompt_loop (loop_fuel 10000 10) t0 t0 q EmptyString in
  let input := trim input in
  if (0 <? String.length input)%nat then input else tz.

Close Scope string_scope.

(** ** The Led class (Led.h, Led.cpp) and the LEDBLINK sketch *)

Inductive PinMode := PM_INPUT | PM_OUTPUT | PM_INPUT_PULLUP.

(** The GPIO registers: each pin's mode and output level (HIGH = true). *)
Record Gpio := mkGpio { pin_mode : Z -> PinMode; pin_level : Z -> bool }.

Definition fn_upd {A : Type} (f : Z -> A) (p : Z) (v : A) : Z -> A :=
  fun q => if Z.eqb q p then v else f q.

Definition pinMode (g : Gpio) (p : Z) (m : PinMode) : Gpio :=
  mkGpio (fn_upd (pin_mode g) p m) (pin_level g).

Definition digitalWrite (g : Gpio) (p : Z) (v : bool) : Gpio :=
  mkGpio (pin_mode g) (fn_upd (pin_level g) p v).

Definition HIGH : bool := true.
Definition LOW : bool := false.

(** [class Led { byte pin; ... }] *)
Record Led := mkLed { pin : Z }.

Definition Led_off (l : Led) (g : Gpio) : Gpio := digitalWrite g (pin l) LOW.
Definition Led_on (l : Led) (g : Gpio) : Gpio := digitalWrite g (pin l) HIGH.
Definition Led_init (l : Led) (g : Gpio) : Gpio := Led_off l (pinMode g (pin l) PM_OUTPUT).

(** [Led::Led(byte pin)]: the argument is converted to [byte]. *)
Definition Led_new (p : Z) (g : Gpio) : Led * Gpio :=
  let l := mkLed (p mod 256) in (l, Led_init l g).

Definition D6 : Z := 12.

(** The state of the GPIOs at real time [x] when [loop()]
    ([led.on(); delay(100); led.off(); delay(1000);]) is called for the
    first time at [t] and runs [n] times; the delays are what takes time. *)
Fixpoint blink_run (n : nat) (l : Led) (t x : Z) (g : Gpio) : Gpio :=
  match n with
  | O => g
  | S n' =>
      if x <? t then g
      else
        let g := Led_on l g in
        if x <? t + 100 then g
        else
          let g := Led_off l g in
          blink_run n' l (t + 1100) x g
  end.

(** ** The shape of an ISO timestamp *)

Definition isdigit (c : ascii) : bool :=
  let n := N_of_ascii c in ((48 <=? n) && (n <=? 57))%N.

(** [s] follows the pattern [p]: a 'd' of [p] stands for any decimal
    digit, any other character for itself. *)
Fixpoint matches_pattern (p s : string) : bool :=
  match p, s with
  | EmptyString, EmptyString => true
  | String pc p', String c s' =>
      (if (pc =? "d")%char then isdigit c else (pc =? c)%char) && matches_pattern p' s'
  | _, _ => false
  end.

Definition iso_pattern : string := "dddd-dd-ddTdd:dd:dd"%string.

(** The part of [civil_from_days] that depends only on the day of the
    400-year era: (year of era with the January/February carry, month, day). *)
Definition civil_of_doe (doe : Z) : Z * Z * Z :=
  let yoe := (doe - doe / 1460 + doe / 36524 - doe / 146096) / 365 in
  let doy := doe - (365 * yoe + yoe / 4 - yoe / 100) in
  let mp := (5 * doy + 2) / 153 in
  let d := doy - (153 * mp + 2) / 5 + 1 in
  let m := if mp <? 10 then mp + 3 else mp - 9 in
  (yoe + (if m <=? 2 then 1 else 0), m, d).

(** Whether the button of a signal reads LOW in a poll. *)
Definition pressed (s : Signal) (p : Poll) : bool :=
  match s with SigUltra => ultraPressed p | SigSound => soundPressed p end.

(** * Theorems *)

(** ** Debounce *)

Lemma ul_sub_millis (a b : Z) :
  ul_sub (millis a) (millis b) = (a - b) mod ULONG_MOD.
Proof.
  unfold ul_sub, millis.
  rewrite Zminus_mod, !Z.mod_mod by (unfold ULONG_MOD; lia).
  now rewrite <- Zminus_mod.
Qed.

Lemma ul_sub_millis_small (a b : Z) :
  0 <= a - b < ULONG_MOD -> ul_sub (millis a) (millis b) = a - b.
Proof.
  intros H. rewrite ul_sub_millis. now apply Z.mod_small.
Qed.

(** A poll that does not return the request of [s] leaves its timestamp. *)
Lemma check_switch_last_fired (s : Signal) st p r st1 :
  check_switch st p = (r, st1) -> r <> request_of s ->
  last_fired s st1 = last_fired s st.
Proof.
  unfold check_switch.
  destruct (ultraPressed p && _); [|destruct (soundPressed p && _)];
    intros E; inversion E; subst; destruct s; simpl; congruence.
Qed.

(** Once [s] has fired at [tp], a poll inside the window does not fire it. *)
Lemma check_switch_in_window (s : Signal) st q r st1 tp :
  last_fired s st = millis tp ->
  tp <= poll_time q <= tp + DEBOUNCE ->
  check_switch st q = (r, st1) -> r <> request_of s.
Proof.
  intros Hl Hq.
  assert (Hs : ul_sub (millis (poll_time q)) (last_fired s st) = poll_time q - tp)
    by (rewrite Hl; apply ul_sub_millis_small; unfold DEBOUNCE, ULONG_MOD in *; lia).
  unfold check_switch; destruct s; simpl in Hs.
  - rewrite Hs. replace (DEBOUNCE <? poll_time q - tp) with false
      by (symmetry; apply Z.ltb_ge; unfold DEBOUNCE in *; lia).
    rewrite andb_false_r.
    destruct (soundPressed q && _); intros E; inversion E; discriminate.
  - destruct (ultraPressed q && _); [intros E; inversion E; discriminate|].
    rewrite Hs. replace (DEBOUNCE <? poll_time q - tp) with false
      by (symmetry; apply Z.ltb_ge; unfold DEBOUNCE in *; lia).
    rewrite andb_false_r. intros E; inversion E; discriminate.
Qed.

Lemma run_polls_in_window (s : Signal) tp ps :
  Forall (fun q => tp <= poll_time q <= tp + DEBOUNCE) ps ->
  forall st, last_fired s st = millis tp ->
  ~ In (request_of s) (fst (run_polls st ps)).
Proof.
  induction 1 as [|q ps Hq Hps IH]; intros st Hl; simpl; [easy|].
  destruct (check_switch st q) as [r st1] eqn:E.
  destruct (run_polls st1 ps) as [rs st2] eqn:E2. simpl.
  pose proof (check_switch_in_window s st q r st1 tp Hl Hq E) as Hr.
  intros [Heq|Hin]; [congruence|].
  apply (IH st1); [|now rewrite E2].
  rewrite (check_switch_last_fired s st q r st1 E Hr). exact Hl.
Qed.

Lemma check_switch_fires_last (s : Signal) st p st1 :
  check_switch st p = (request_of s, st1) ->
  last_fired s st1 = millis (poll_time p).
Proof.
  unfold check_switch.
  destruct (ultraPressed p && _); [|destruct (soundPressed p && _)];
    intros E; inversion E; subst; destruct s; simpl in *; congruence.
Qed.

(** C1 (corrected). When a call of [check_switch] at time [tp] returns the
    request of signal [s] (distance or sound), no later poll at a time
    within [tp .. tp + 250] ms returns the request of [s] again, whatever
    happens to the buttons in between; a trigger that did not win its poll
    does not open a window. *)
Lemma check_switch_debounce_window (s : Signal) st p st1 ps :
  check_switch st p = (request_of s, st1) ->
  Forall (fun q => poll_time p <= poll_time q <= poll_time p + DEBOUNCE) ps ->
  ~ In (request_of s) (fst (run_polls st1 ps)).
Proof.
  intros E Hps.
  apply (run_polls_in_window s (poll_time p) ps Hps).
  now apply (check_switch_fires_last s st p st1).
Qed.

Lemma check_switch_debounce_window_witness :
  check_switch debounce_init (mkPoll true false 1000)
    = (request_of SigUltra, mkDebounce 1000 0) /\
  Forall (fun q => 1000 <= poll_time q <= 1000 + DEBOUNCE)
    [mkPoll true true 1100; mkPoll true false 1250] /\
  ~ In (request_of SigUltra)
    (fst (run_polls (mkDebounce 1000 0) [mkPoll true true 1100; mkPoll true false 1250])).
Proof.
  assert (E : check_switch debounce_init (mkPoll true false 1000)
                = (request_of SigUltra, mkDebounce 1000 0)) by reflexivity.
  assert (F : Forall (fun q => 1000 <= poll_time q <= 1000 + DEBOUNCE)
                [mkPoll true true 1100; mkPoll true false 1250])
    by (repeat constructor; simpl; unfold DEBOUNCE; lia).
  split; [exact E|split; [exact F|]].
  exact (check_switch_debounce_window SigUltra debounce_init
           (mkPoll true false 1000) (mkDebounce 1000 0) _ E F).
Defined.

(** C1 counterexample: both buttons are pressed at 1000 ms (the distance
    request wins, the sound timestamp is not updated); the sound button is
    pressed again 100 ms later and that poll returns the sound request. *)
Lemma check_switch_sound_retrigger_cex :
  fst (run_polls debounce_init
         [mkPoll true true 1000; mkPoll false true 1100])
  = [NODE_ULTRA; NODE_SOUND].
Proof. reflexivity. Qed.

(** C7 (corrected). When both buttons read LOW in one poll, the distance
    request is returned exactly when the distance signal is outside its
    debounce window ([millis() - lastUltraMs > 250]); it then updates only
    [lastUltraMs]. Inside that window the poll falls through to the sound
    signal: the sound request is returned, updating only [lastSoundMs], when
    the sound window has elapsed ([millis() - lastSoundMs > 250]), and no
    request, with both timestamps unchanged, otherwise. *)
Lemma check_switch_both_pressed st p :
  ultraPressed p = true -> soundPressed p = true ->
  (fst (check_switch st p) = NODE_ULTRA <->
     DEBOUNCE < ul_sub (millis (poll_time p)) (lastUltraMs st)) /\
  (DEBOUNCE < ul_sub (millis (poll_time p)) (lastUltraMs st) ->
     check_switch st p
       = (NODE_ULTRA, mkDebounce (millis (poll_time p)) (lastSoundMs st))) /\
  (~ DEBOUNCE < ul_sub (millis (poll_time p)) (lastUltraMs st) ->
     DEBOUNCE < ul_sub (millis (poll_time p)) (lastSoundMs st) ->
     check_switch st p
       = (NODE_SOUND, mkDebounce (lastUltraMs st) (millis (poll_time p)))) /\
  (~ DEBOUNCE < ul_sub (millis (poll_time p)) (lastUltraMs st) ->
     ~ DEBOUNCE < ul_sub (millis (poll_time p)) (lastSoundMs st) ->
     check_switch st p = (NODE_NONE, st)).
Proof.
  intros Hu Hs. unfold check_switch. rewrite Hu, Hs. cbn [andb].
  destruct (Z.ltb_spec DEBOUNCE (ul_sub (millis (poll_time p)) (lastUltraMs st)))
    as [H|H];
  destruct (Z.ltb_spec DEBOUNCE (ul_sub (millis (poll_time p)) (lastSoundMs st)))
    as [H'|H'].
  - split; [split; auto|]. split; [auto|]. split; intros; lia.
  - split; [split; auto|]. split; [auto|]. split; intros; lia.
  - split; [split; [discriminate|lia]|]. split; [lia|]. split; [auto|intros; lia].
  - split; [split; [discriminate|lia]|]. split; [lia|]. split; [intros; lia|auto].
Qed.

Lemma check_switch_both_pressed_witness :
  ultraPressed (mkPoll true true 5000) = true /\
  soundPressed (mkPoll true true 5000) = true /\
  fst (check_switch debounce_init (mkPoll true true 5000)) = NODE_ULTRA /\
  check_switch (mkDebounce 1000 0) (mkPoll true true 1100)
    = (NODE_SOUND, mkDebounce 1000 1100).
Proof.
  split; [reflexivity|split; [reflexivity|split]].
  - apply (proj2 (proj1 (check_switch_both_pressed debounce_init (mkPoll true true 5000)
                           eq_refl eq_refl))).
    vm_compute. reflexivity.
  - apply (proj1 (proj2 (proj2 (check_switch_both_pressed (mkDebounce 1000 0)
                                  (mkPoll true true 1100) eq_refl eq_refl))));
      vm_compute; [discriminate|reflexivity].
Defined.

(** C7 counterexample: the distance button was accepted 100 ms ago and is
    still held; both buttons read LOW and the sound request is returned. *)
Lemma check_switch_both_pressed_cex :
  fst (check_switch (mkDebounce 1000 0) (mkPoll true true 1100)) = NODE_SOUND.
Proof. reflexivity. Qed.

(** ** Percent-encoding and the form body *)

Section Encoding.
Open Scope string_scope.

Lemma hex_at_spec (c : ascii) :
  hex_at (N.land (N.shiftr (N_of_ascii c) 4) 15) = upper_hex_digit (N_of_ascii c / 16)
  /\ hex_at (N.land (N_of_ascii c) 15) = upper_hex_digit (N_of_ascii c mod 16).
Proof. destruct c as [[] [] [] [] [] [] [] []]; split; reflexivity. Qed.

Lemma urlEncode_percent_encode_spec (s : string) :
  urlEncode s = percent_encode_spec s.
Proof.
  induction s as [|c s IH]; [reflexivity|].
  destruct (hex_at_spec c) as [H1 H2].
  cbn [urlEncode percent_encode_spec]. cbv zeta. rewrite H1, H2, IH.
  now destruct (unreserved c).
Qed.

Lemma all_unreserved_app (a b : string) :
  all_unreserved (a ++ b) = all_unreserved a && all_unreserved b.
Proof. induction a as [|c a IH]; simpl; [reflexivity|]. now rewrite IH, andb_assoc. Qed.

Lemma percent_encode_spec_unreserved (s : string) :
  all_unreserved s = true -> percent_encode_spec s = s.
Proof.
  induction s as [|c s IH]; simpl; [reflexivity|].
  destruct (unreserved c); simpl; [|discriminate].
  intros H. now rewrite IH.
Qed.

Lemma dec_of_N_unreserved (n : N) : all_unreserved (dec_of_N n) = true.
Proof.
  unfold dec_of_N. generalize (N.to_uint n) as u.
  induction u; simpl; try rewrite IHu; reflexivity.
Qed.

Lemma pad_zeros_unreserved (w : nat) (s : string) :
  all_unreserved s = true -> all_unreserved (pad_zeros w s) = true.
Proof.
  revert s; induction w as [|w IH]; intros s H; simpl; [exact H|].
  destruct (match String.length s with 0%nat => false | S m' => (w <=? m')%nat end);
    [exact H|]. apply IH. simpl. exact H.
Qed.

(** Every rendering of [String(x, 2)] consists of unreserved characters. *)
Lemma String_float2_unreserved (x : float) : all_unreserved (String_float2 x) = true.
Proof.
  destruct x as [s| s| |s m e]; try reflexivity. unfold String_float2.
  rewrite !all_unreserved_app, dec_of_N_unreserved.
  unfold dec_pad. rewrite pad_zeros_unreserved by apply dec_of_N_unreserved.
  destruct s; reflexivity.
Qed.

End Encoding.

(** ** postToServer and transmit *)

Section Posting.
Open Scope string_scope.

(** C3. The form body built by [postToServer] carries each of its five
    fields (node name, timestamp, region label and the two numeric
    readings) percent-encoded: unreserved characters (C-locale alphanumerics
    and [-_.~]) unchanged, any other byte as '%' and two uppercase hex
    digits. The numeric readings are inserted as their [String(x, 2)]
    renderings, which only contain unreserved characters, so the body is
    the one obtained by encoding them too. In particular "A b/c" is encoded
    as "A%20b%2Fc". *)
Theorem form_body_percent_encoded (nodeName isoUtc tzRegion : string)
    (distance_cm sound_db : float) :
  form_body nodeName isoUtc tzRegion distance_cm sound_db =
    "node_name=" ++ percent_encode_spec nodeName ++
    "&measured_iso=" ++ percent_encode_spec isoUtc ++
    "&tz_region=" ++ percent_encode_spec tzRegion ++
    "&distance_cm=" ++ percent_encode_spec (String_float2 distance_cm) ++
    "&sound_db=" ++ percent_encode_spec (String_float2 sound_db)
  /\ urlEncode "A b/c" = "A%20b%2Fc".
Proof.
  split; [|reflexivity].
  unfold form_body. rewrite !urlEncode_percent_encode_spec.
  rewrite !(percent_encode_spec_unreserved (String_float2 _))
    by apply String_float2_unreserved.
  reflexivity.
Qed.

(** C5. [postToServer] returns true exactly when [https.begin] succeeded and
    [https.POST] produced a genuine HTTP response; its status is then the
    positive [httpCodeOut]. On a setup failure or a transport error it
    returns false and [httpCodeOut] is not positive. [transmit] reports
    success exactly when [postToServer] returned true and the status is in
    [200, 300). *)
Theorem postToServer_attempted_and_transmit :
  (forall env baseUrl path nodeName isoUtc tzRegion distance_cm sound_db outs,
     let r := postToServer env baseUrl path nodeName isoUtc tzRegion
                distance_cm sound_db outs in
     (fst r = true <->
        http_begin env (baseUrl ++ path) = true /\
        exists st pl, http_post env (form_body nodeName isoUtc tzRegion
                                       distance_cm sound_db) = HttpResponse st pl
                      /\ httpCodeOut (snd r) = Zpos st /\ bodyOut (snd r) = pl) /\
     (fst r = false -> (httpCodeOut (snd r) <= 0)%Z)) /\
  (forall env tzRegion who isoUtc dist_cm sound_db code0 resp0,
     let node := if NodeSel_eqb who NODE_ULTRA then nodeUltraName else nodeSoundName in
     let r := postToServer env SERVER_BASE POST_PATH node isoUtc tzRegion
                dist_cm sound_db (mkPostOuts code0 resp0) in
     transmit env tzRegion who isoUtc dist_cm sound_db code0 resp0 = true <->
     fst r = true /\ (200 <= httpCodeOut (snd r) < 300)%Z).
Proof.
  split.
  - intros env baseUrl path nodeName isoUtc tzRegion d s outs. cbv zeta.
    unfold postToServer. cbv zeta.
    destruct (http_begin env (baseUrl ++ path)); simpl.
    + destruct (http_post env _) as [st pl|e]; simpl.
      * split; [split; [intros _; split; [reflexivity|]; exists st, pl; auto|auto]|].
        discriminate.
      * split; [split; [discriminate|intros [_ [st [pl [H _]]]]; discriminate]|].
        intros _. lia.
    + split; [split; [discriminate|intros [H _]; discriminate]|]. intros _; lia.
  - intros env tzRegion who isoUtc d s c0 r0. cbv zeta. unfold transmit.
    destruct (postToServer _ _ _ _ _ _ _ _ _) as [ok outs]. simpl.
    destruct ok; simpl; [|split; [discriminate|intros [H _]; discriminate]].
    rewrite andb_true_iff, Z.leb_le, Z.ltb_lt. tauto.
Qed.

(** C10. [postToServer] clears its out-parameters before any network
    activity: whatever they held, when [https.begin] fails it returns false
    with [httpCodeOut = 0] and [bodyOut = ""]. *)
Theorem postToServer_begin_failure_resets env baseUrl path nodeName isoUtc tzRegion
    distance_cm sound_db (outs : PostOuts) :
  http_begin env (baseUrl ++ path) = false ->
  postToServer env baseUrl path nodeName isoUtc tzRegion distance_cm sound_db outs
  = (false, mkPostOuts 0 "").
Proof. intros H. unfold postToServer. now rewrite H. Qed.

Lemma postToServer_begin_failure_resets_witness :
  http_begin env_no_connection (SERVER_BASE ++ POST_PATH) = false /\
  postToServer env_no_connection SERVER_BASE POST_PATH nodeUltraName
    "2023-11-14T14:13:20" "America/Los_Angeles" NAN (S754_zero false)
    (mkPostOuts 404 "stale")
  = (false, mkPostOuts 0 "").
Proof.
  split; [reflexivity|].
  apply postToServer_begin_failure_resets. reflexivity.
Defined.

End Posting.

(** ** The time resolver *)

Section TimeResolver.
Variable env : TimeEnv.

Lemma ul_sub_elapsed (t0 e : Z) :
  0 <= e < ULONG_MOD -> ul_sub (millis (t0 + e)) (millis t0) = e.
Proof. intros H. rewrite ul_sub_millis_small; lia. Qed.

(** The Wi-Fi poll loop, from its [i]-th iteration, succeeds exactly at the
    first connected poll among the remaining ones inside the 8 s window. *)
Lemma ensureWifi_loop_some (n i : nat) (t0 tw : Z) :
  (i <= 27)%nat -> (27 <= i + n)%nat ->
  ensureWifi_loop env n WIFI_TIMEOUT t0 (t0 + WIFI_POLL * Z.of_nat i) = Some tw <->
  exists k : nat, (i <= k)%nat /\ WIFI_POLL * Z.of_nat k < WIFI_TIMEOUT /\
    tw = t0 + WIFI_POLL * Z.of_nat k /\ wifi_connected env tw = true /\
    forall j : nat, (i <= j < k)%nat ->
      wifi_connected env (t0 + WIFI_POLL * Z.of_nat j) = false.
Proof.
  unfold WIFI_POLL, WIFI_TIMEOUT.
  revert i. induction n as [|n IH]; intros i Hi Hn; cbn [ensureWifi_loop]; unfold WIFI_POLL.
  - split; [discriminate|]. intros [k [Hk [Hb _]]]. lia.
  - rewrite ul_sub_elapsed by (unfold ULONG_MOD; lia).
    destruct (Z.ltb_spec (300 * Z.of_nat i) 8000) as [Hc|Hc].
    + destruct (wifi_connected env (t0 + 300 * Z.of_nat i)) eqn:W.
      * split.
        -- intros E; injection E as <-. exists i.
           split; [lia|split; [exact Hc|split; [reflexivity|split; [exact W|]]]].
           intros j Hj; lia.
        -- intros [k [Hk [Hb [Ht [Hw Hj]]]]].
           destruct (Nat.eq_dec k i) as [->|Hne]; [now subst|].
           rewrite (Hj i) in W by lia. discriminate.
      * replace (t0 + 300 * Z.of_nat i + 300) with (t0 + 300 * Z.of_nat (S i)) by lia.
        rewrite IH by lia. split.
        -- intros [k [Hk [Hb [Ht [Hw Hj]]]]].
           exists k; repeat split; auto; try lia.
           intros j Hj'. destruct (Nat.eq_dec j i) as [->|]; [exact W|apply Hj; lia].
        -- intros [k [Hk [Hb [Ht [Hw Hj]]]]].
           destruct (Nat.eq_dec k i) as [->|Hne]; [subst; congruence|].
           exists k; repeat split; auto; try lia.
           intros j Hj'. apply Hj. lia.
    + split; [discriminate|]. intros [k [Hk [Hb _]]]. lia.
Qed.

Lemma ensureWifi_loop_none (n i : nat) (t0 : Z) :
  (i <= 27)%nat -> (27 <= i + n)%nat ->
  ensureWifi_loop env n WIFI_TIMEOUT t0 (t0 + WIFI_POLL * Z.of_nat i) = None <->
  forall k : nat, (i <= k)%nat -> WIFI_POLL * Z.of_nat k < WIFI_TIMEOUT ->
    wifi_connected env (t0 + WIFI_POLL * Z.of_nat k) = false.
Proof.
  unfold WIFI_POLL, WIFI_TIMEOUT.
  revert i. induction n as [|n IH]; intros i Hi Hn; cbn [ensureWifi_loop]; unfold WIFI_POLL.
  - split; [|reflexivity]. intros _ k Hk Hb. lia.
  - rewrite ul_sub_elapsed by (unfold ULONG_MOD; lia).
    destruct (Z.ltb_spec (300 * Z.of_nat i) 8000) as [Hc|Hc].
    + destruct (wifi_connected env (t0 + 300 * Z.of_nat i)) eqn:W.
      * split; [discriminate|]. intros H. rewrite H in W by lia. discriminate.
      * replace (t0 + 300 * Z.of_nat i + 300) with (t0 + 300 * Z.of_nat (S i)) by lia.
        rewrite IH by lia. split.
        -- intros H k Hk Hb. destruct (Nat.eq_dec k i) as [->|]; [exact W|apply H; lia].
        -- intros H k Hk Hb. apply H; lia.
    + split; [|reflexivity]. intros _ k Hk Hb. lia.
Qed.

(** The SNTP wait returns the last reading; it is above the threshold
    exactly when one of the polls inside the 12 s window saw such a value. *)
Lemma sntp_wait_valid (n i : nat) (t0 now : Z) :
  (i <= 48)%nat -> (48 <= i + n)%nat -> now <= MIN_VALID ->
  (MIN_VALID < sntp_wait env n t0 (t0 + SNTP_POLL * Z.of_nat i) now <->
   exists k : nat, (i <= k)%nat /\ SNTP_POLL * Z.of_nat k < SNTP_TIMEOUT /\
     MIN_VALID < clock env (t0 + SNTP_POLL * Z.of_nat k)).
Proof.
  unfold SNTP_POLL, SNTP_TIMEOUT.
  revert i now. induction n as [|n IH]; intros i now Hi Hn Hnow; cbn [sntp_wait];
    unfold SNTP_POLL, SNTP_TIMEOUT.
  - split; [lia|]. intros [k [Hk [Hb _]]]. lia.
  - rewrite ul_sub_elapsed by (unfold ULONG_MOD; lia).
    destruct (Z.ltb_spec (250 * Z.of_nat i) 12000) as [Hc|Hc].
    + destruct (Z.ltb_spec MIN_VALID (clock env (t0 + 250 * Z.of_nat i))) as [V|V].
      * split; [intros _; exists i; repeat split; auto; lia|intros _; exact V].
      * replace (t0 + 250 * Z.of_nat i + 250) with (t0 + 250 * Z.of_nat (S i)) by lia.
        rewrite IH by lia. split.
        -- intros [k [Hk [Hb Hv]]]. exists k; repeat split; auto; lia.
        -- intros [k [Hk [Hb Hv]]].
           destruct (Nat.eq_dec k i) as [->|]; [lia|].
           exists k; repeat split; auto; lia.
    + split; [lia|]. intros [k [Hk [Hb _]]]. lia.
Qed.

(** Its result is the initial value or a clock reading. *)
Lemma sntp_wait_reading (n : nat) (t0 t now : Z) :
  sntp_wait env n t0 t now = now \/ exists t', sntp_wait env n t0 t now = clock env t'.
Proof.
  revert t now. induction n as [|n IH]; intros t now; simpl; [now left|].
  destruct (_ <? SNTP_TIMEOUT); [|now left].
  destruct (MIN_VALID <? clock env t); [right; now exists t|].
  destruct (IH (t + SNTP_POLL) (clock env t)) as [E|E]; [right; now exists t|now right].
Qed.

End TimeResolver.

Lemma loop_fuel_wifi : loop_fuel WIFI_TIMEOUT WIFI_POLL = 28%nat.
Proof. reflexivity. Qed.

Lemma loop_fuel_sntp : loop_fuel SNTP_TIMEOUT SNTP_POLL = 50%nat.
Proof. reflexivity. Qed.

Lemma ensureWifi_some (env : TimeEnv) (s tw : Z) :
  ensureWifi env WIFI_TIMEOUT s = Some tw <->
  exists k : nat, WIFI_POLL * Z.of_nat k < WIFI_TIMEOUT /\
    tw = s + WIFI_POLL * Z.of_nat k /\ wifi_connected env tw = true /\
    forall j : nat, (j < k)%nat -> wifi_connected env (s + WIFI_POLL * Z.of_nat j) = false.
Proof.
  unfold ensureWifi. destruct (wifi_connected env s) eqn:W0.
  - split.
    + intros E; injection E as <-. exists 0%nat.
      split; [unfold WIFI_POLL, WIFI_TIMEOUT; lia|].
      split; [lia|split; [exact W0|intros j Hj; lia]].
    + intros [k [Hb [Ht [Hw Hj]]]]. destruct k as [|k].
      * f_equal. rewrite Ht. lia.
      * specialize (Hj 0%nat ltac:(lia)). rewrite Z.add_0_r in Hj. congruence.
  - rewrite loop_fuel_wifi.
    replace s with (s + WIFI_POLL * Z.of_nat 0) at 2 by lia.
    rewrite ensureWifi_loop_some by lia. split.
    + intros [k [_ [Hb [Ht [Hw Hj]]]]]. exists k.
      split; [exact Hb|split; [exact Ht|split; [exact Hw|intros j Hj'; apply Hj; lia]]].
    + intros [k [Hb [Ht [Hw Hj]]]]. exists k.
      split; [lia|split; [exact Hb|split; [exact Ht|split; [exact Hw|]]]].
      intros j Hj'. apply Hj. lia.
Qed.

Lemma ensureWifi_none (env : TimeEnv) (s : Z) :
  ensureWifi env WIFI_TIMEOUT s = None <->
  forall k : nat, WIFI_POLL * Z.of_nat k < WIFI_TIMEOUT ->
    wifi_connected env (s + WIFI_POLL * Z.of_nat k) = false.
Proof.
  unfold ensureWifi. destruct (wifi_connected env s) eqn:W0.
  - split; [discriminate|]. intros H.
    specialize (H 0%nat ltac:(unfold WIFI_POLL, WIFI_TIMEOUT; lia)).
    rewrite Z.add_0_r in H. congruence.
  - rewrite loop_fuel_wifi.
    replace s with (s + WIFI_POLL * Z.of_nat 0) at 2 by lia.
    rewrite ensureWifi_loop_none by lia. split.
    + intros H k Hb. apply H; [lia|exact Hb].
    + intros H k _ Hb. apply H; exact Hb.
Qed.

Lemma sntp_wait_spec (env : TimeEnv) (t : Z) :
  MIN_VALID < sntp_wait env (loop_fuel SNTP_TIMEOUT SNTP_POLL) t t 0 <->
  exists k : nat, SNTP_POLL * Z.of_nat k < SNTP_TIMEOUT /\
    MIN_VALID < clock env (t + SNTP_POLL * Z.of_nat k).
Proof.
  rewrite loop_fuel_sntp.
  replace t with (t + SNTP_POLL * Z.of_nat 0) at 2 by lia.
  rewrite sntp_wait_valid by (unfold MIN_VALID; lia). split.
  - intros [k [_ H]]. now exists k.
  - intros [k H]. exists k. split; [lia|exact H].
Qed.

Lemma long_wrap_small (x : Z) : LONG_MIN <= x <= LONG_MAX -> long_wrap x = x.
Proof.
  unfold long_wrap, LONG_MIN, LONG_MAX. intros H.
  rewrite Z.mod_small by lia. lia.
Qed.

Lemma string_append_empty_r (s : string) : String.append s EmptyString = s.
Proof. induction s as [|c s IH]; simpl; [reflexivity|now rewrite IH]. Qed.

Section TimeTheorems.
Open Scope string_scope.

(** C2. When [getTimeIsoUtc] succeeds, its output is the
    "%Y-%m-%dT%H:%M:%S" rendering of the broken-down UTC time of
    [T + H * 3600], where [T > 1609459200] is the epoch time read from the
    clock and [H] the configured [NTP_ADD_HOURS] (any [H] for which the
    [long] product [H * 3600] is defined), followed by "Z" exactly when
    [APPEND_Z] is set. *)
Theorem getTimeIsoUtc_format (cfg : TimeConfig) (env : TimeEnv) (tzRegion s : string) :
  LONG_MIN <= NTP_ADD_HOURS cfg * 3600 <= LONG_MAX ->
  getTimeIsoUtc cfg env tzRegion = (true, s) ->
  exists t : Z, MIN_VALID < clock env t /\
    s = strftime_iso (gmtime (clock env t + NTP_ADD_HOURS cfg * 3600))
        ++ (if APPEND_Z cfg then "Z" else "").
Proof.
  intros Hr. unfold getTimeIsoUtc.
  destruct (ensureWifi env WIFI_TIMEOUT (t_start env)) as [tw|]; [|discriminate].
  set (now := sntp_wait env _ tw tw 0).
  destruct (Z.leb_spec now MIN_VALID) as [Hle|Hgt]; [discriminate|].
  intros E. pose proof (f_equal snd E) as Es. cbn [snd] in Es. subst s.
  destruct (sntp_wait_reading env (loop_fuel SNTP_TIMEOUT SNTP_POLL) tw tw 0)
    as [E0|[t' Et]].
  - fold now in E0. unfold MIN_VALID in Hgt. lia.
  - fold now in Et. exists t'. rewrite <- Et. split; [exact Hgt|].
    rewrite long_wrap_small by exact Hr.
    destruct (APPEND_Z cfg); [reflexivity|now rewrite string_append_empty_r].
Qed.

Lemma getTimeIsoUtc_format_witness :
  (LONG_MIN <= NTP_ADD_HOURS default_config * 3600 <= LONG_MAX /\
   getTimeIsoUtc default_config env_clock_1700000000 "America/Los_Angeles"
     = (true, "2023-11-14T14:13:20")) /\
  exists t : Z, MIN_VALID < clock env_clock_1700000000 t /\
    "2023-11-14T14:13:20" =
      strftime_iso (gmtime (clock env_clock_1700000000 t
                            + NTP_ADD_HOURS default_config * 3600))
      ++ (if APPEND_Z default_config then "Z" else "").
Proof.
  assert (H1 : LONG_MIN <= NTP_ADD_HOURS default_config * 3600 <= LONG_MAX)
    by (vm_compute; split; discriminate).
  assert (H2 : getTimeIsoUtc default_config env_clock_1700000000 "America/Los_Angeles"
               = (true, "2023-11-14T14:13:20")) by (vm_compute; reflexivity).
  split; [split; [exact H1|exact H2]|].
  exact (getTimeIsoUtc_format default_config env_clock_1700000000 _ _ H1 H2).
Defined.

(** C4. [getTimeIsoUtc] fails exactly when no poll of the Wi-Fi status
    inside its 8 s window sees a connection, or when, after the poll that
    sees it, no reading of the clock inside the 12 s window exceeds the
    2021-01-01 threshold (epoch 1609459200); on failure the output is empty.
    Otherwise it succeeds. *)
Theorem getTimeIsoUtc_failure (cfg : TimeConfig) (env : TimeEnv) (tzRegion : string) :
  (fst (getTimeIsoUtc cfg env tzRegion) = false <->
   (forall k : nat, WIFI_POLL * Z.of_nat k < WIFI_TIMEOUT ->
      wifi_connected env (t_start env + WIFI_POLL * Z.of_nat k) = false) \/
   (exists k : nat, WIFI_POLL * Z.of_nat k < WIFI_TIMEOUT /\
      wifi_connected env (t_start env + WIFI_POLL * Z.of_nat k) = true /\
      (forall j : nat, (j < k)%nat ->
         wifi_connected env (t_start env + WIFI_POLL * Z.of_nat j) = false) /\
      forall k' : nat, SNTP_POLL * Z.of_nat k' < SNTP_TIMEOUT ->
        clock env (t_start env + WIFI_POLL * Z.of_nat k + SNTP_POLL * Z.of_nat k')
          <= MIN_VALID)) /\
  (fst (getTimeIsoUtc cfg env tzRegion) = false -> snd (getTimeIsoUtc cfg env tzRegion) = "").
Proof.
  unfold getTimeIsoUtc.
  destruct (ensureWifi env WIFI_TIMEOUT (t_start env)) as [tw|] eqn:EW.
  - apply ensureWifi_some in EW as [k [Hb [Ht [Hw Hj]]]]. subst tw.
    pose proof (sntp_wait_spec env (t_start env + WIFI_POLL * Z.of_nat k)) as HS.
    set (now := sntp_wait env _ _ _ 0) in *.
    destruct (Z.leb_spec now MIN_VALID) as [Hle|Hgt]; cbn [fst snd].
    + split; [|reflexivity]. split; [intros _; right|reflexivity].
      exists k. split; [exact Hb|split; [exact Hw|split; [exact Hj|]]].
      intros k' Hk'. apply Z.nlt_ge. intros Hv.
      assert (MIN_VALID < now) by (apply HS; now exists k'). lia.
    + split; [|discriminate]. split; [discriminate|].
      intros [Hall|[k2 [Hb2 [Hw2 [Hj2 Hc]]]]].
      * rewrite Hall in Hw by exact Hb. discriminate.
      * assert (k2 = k) as ->.
        { destruct (Nat.lt_total k2 k) as [Hlt|[Heq|Hlt]]; [|exact Heq|].
          - rewrite Hj in Hw2 by exact Hlt. discriminate.
          - rewrite Hj2 in Hw by exact Hlt. discriminate. }
        apply HS in Hgt as [k' [Hk' Hv]].
        specialize (Hc k' Hk'). lia.
  - pose proof (proj1 (ensureWifi_none env (t_start env)) EW) as HN.
    cbn [fst snd]. split; [|reflexivity].
    split; [intros _; left; exact HN|reflexivity].
Qed.

(** C9. The [tzRegion] argument is not used: for the same configuration
    and environment, any two region strings give the same success flag and
    the same timestamp, also through [read_time]. *)
Theorem getTimeIsoUtc_ignores_region (cfg : TimeConfig) (env : TimeEnv) (r1 r2 : string) :
  getTimeIsoUtc cfg env r1 = getTimeIsoUtc cfg env r2 /\
  read_time cfg env r1 = read_time cfg env r2.
Proof. split; reflexivity. Qed.

End TimeTheorems.

(** ** Sensor readers *)

(** The float literals are the roundings of their decimal values. *)
Lemma float_literals :
  f_0_0343 = f_div (f_of_Z 343) (f_of_Z 10000) /\ f_2_0 = f_of_Z 2 /\
  f_512_0 = f_of_Z 512 /\ f_1_0 = f_of_Z 1 /\ f_20_0 = f_of_Z 20.
Proof. vm_compute. repeat split. Qed.

Lemma in_zseq (start x : Z) (n : nat) :
  In x (zseq start n) <-> start <= x < start + Z.of_nat n.
Proof.
  revert start. induction n as [|n IH]; intros start; simpl; [lia|].
  rewrite IH. lia.
Qed.

(** The conversion is checked for every duration [pulseIn] can return. *)
Lemma distance_table :
  forallb (fun D => within_tol (f_div (f_mul (f_of_Z D) f_0_0343) f_2_0) D)
          (zseq 1 (Z.to_nat 30000)) = true.
Proof. vm_compute. reflexivity. Qed.

Lemma distance_conversion (D : Z) :
  0 < D <= 30000 ->
  within_tol (f_div (f_mul (f_of_Z D) f_0_0343) f_2_0) D = true.
Proof.
  intros HD.
  apply (proj1 (forallb_forall _ _) distance_table D).
  apply in_zseq. rewrite Z2Nat.id by lia. lia.
Qed.

Lemma pulseIn_range (e : Echo) (timeout : Z) :
  pulseIn e timeout = 0 \/ 0 < pulseIn e timeout <= timeout.
Proof.
  unfold pulseIn.
  destruct (Z.leb_spec 0 (echo_rise e)), (Z.ltb_spec 0 (echo_width e)),
    (Z.leb_spec (echo_rise e + echo_width e) timeout); simpl; lia.
Qed.

(** C6. [read_sensor_1] returns NaN exactly when [pulseIn] reports 0, which
    happens when no complete echo pulse ends within 30 ms of the call.
    Otherwise the duration [D] satisfies [0 < D <= 30000] and the result is
    a finite float within relative error 2^-23 of [D * 0.0343 / 2]. *)
Theorem read_sensor_1_distance (e : Echo) :
  let D := pulseIn e 30000 in
  (D = 0 <-> ~ (0 <= echo_rise e /\ 0 < echo_width e /\
                echo_rise e + echo_width e <= 30000)) /\
  (D = 0 -> read_sensor_1 e = NAN) /\
  (D <> 0 -> 0 < D <= 30000 /\
     exists q : Q, float_value (read_sensor_1 e) = Some q /\
       Qle_bool (Qabs (q - distance_exact D)) (distance_exact D * (1 # 8388608)) = true).
Proof.
  cbv zeta. split; [|split].
  - unfold pulseIn.
    destruct (Z.leb_spec 0 (echo_rise e)), (Z.ltb_spec 0 (echo_width e)),
      (Z.leb_spec (echo_rise e + echo_width e) 30000); simpl; lia.
  - intros H0. unfold read_sensor_1. cbv zeta. now rewrite H0.
  - intros Hne. destruct (pulseIn_range e 30000) as [H|HD]; [contradiction|].
    split; [exact HD|].
    pose proof (distance_conversion _ HD) as Ht. unfold within_tol in Ht.
    unfold read_sensor_1. cbv zeta.
    replace (pulseIn e 30000 =? 0) with false by (symmetry; apply Z.eqb_neq; exact Hne).
    destruct (float_value _) as [q|]; [|discriminate].
    now exists q.
Qed.

Lemma fold_left_ext_in {A B : Type} (f g : B -> A -> B) (l : list A) (b : B) :
  (forall b' a, In a l -> f b' a = g b' a) -> fold_left f l b = fold_left g l b.
Proof.
  revert b. induction l as [|a l IH]; intros b H; simpl; [reflexivity|].
  rewrite (H b a (or_introl eq_refl)). apply IH. intros b' a' Ha. apply H. now right.
Qed.

(** The result of [read_sensor_2] is always finite, whatever [log10f] does. *)
Lemma read_sensor_2_finite (log10f : float -> float) (analog : nat -> Z) :
  f_isfinite (read_sensor_2 log10f analog) = true.
Proof.
  unfold read_sensor_2. cbv zeta.
  set (db := f_mul f_20_0 _).
  destruct (f_isfinite db) eqn:E; cbn [negb]; [exact E|reflexivity].
Qed.

(** C8. When the 200 samples all read the mid-point 512, the value passed
    to [log10f] is exactly 1.0f (the floor of the zero deviation), and with
    libm's [log10f(1) = +0] the returned level is exactly +0.0f, a finite
    value; the result of [read_sensor_2] is finite for every input. *)
Theorem read_sensor_2_midpoint (log10f : float -> float) (analog : nat -> Z) :
  log10f f_1_0 = S754_zero false ->
  (forall i : nat, (i < 200)%nat -> analog i = 512) ->
  f_max (f_abs (f_sub (f_div (f_of_Z (fold_left (fun acc i => acc + analog i)
                                                 (seq 0 200) 0))
                              (f_of_Z 200)) f_512_0)) f_1_0 = f_1_0 /\
  read_sensor_2 log10f analog = f_0_0 /\
  (forall analog' : nat -> Z, f_isfinite (read_sensor_2 log10f analog') = true).
Proof.
  intros Hlog Hmid.
  assert (Hsum : fold_left (fun acc i => acc + analog i) (seq 0 200) 0 = 102400).
  { rewrite (fold_left_ext_in _ (fun acc _ => acc + 512)); [reflexivity|].
    intros b i Hi. apply in_seq in Hi. rewrite Hmid by lia. reflexivity. }
  assert (Hone : f_max (f_abs (f_sub (f_div (f_of_Z 102400) (f_of_Z 200)) f_512_0)) f_1_0
                 = f_1_0) by (vm_compute; reflexivity).
  split; [rewrite Hsum; exact Hone|split; [|apply read_sensor_2_finite]].
  unfold read_sensor_2. cbv zeta. rewrite Hsum.
  change (Z.of_nat 200) with 200. rewrite Hone, Hlog. vm_compute. reflexivity.
Qed.

Lemma read_sensor_2_midpoint_witness :
  (log10f_small f_1_0 = S754_zero false /\
   forall i : nat, (i < 200)%nat -> (fun _ : nat => 512) i = 512) /\
  read_sensor_2 log10f_small (fun _ => 512) = f_0_0.
Proof.
  assert (H1 : log10f_small f_1_0 = S754_zero false) by (vm_compute; reflexivity).
  assert (H2 : forall i : nat, (i < 200)%nat -> (fun _ : nat => 512) i = 512)
    by (intros; reflexivity).
  split; [split; [exact H1|exact H2]|].
  exact (proj1 (proj2 (read_sensor_2_midpoint log10f_small (fun _ => 512) H1 H2))).
Defined.

(** ** urlEncode as a function, and the body as the server reads it *)

Section UrlEncodeMore.
Open Scope string_scope.

Lemma string_app_assoc (a b c : string) : (a ++ b) ++ c = a ++ (b ++ c).
Proof. induction a as [|x a IH]; simpl; [reflexivity|now rewrite IH]. Qed.

(** The escape digits are unreserved characters. *)
Lemma hex_at_unreserved (c : ascii) :
  unreserved (hex_at (N.land (N.shiftr (N_of_ascii c) 4) 15)) = true /\
  unreserved (hex_at (N.land (N_of_ascii c) 15)) = true.
Proof. destruct c as [[] [] [] [] [] [] [] []]; split; reflexivity. Qed.

(** An unreserved character is neither '%' nor '+' and decodes to itself. *)
Lemma form_decode_unreserved_char (c : ascii) (r : string) :
  unreserved c = true -> form_decode (String c r) = option_map (String c) (form_decode r).
Proof.
  destruct c as [[] [] [] [] [] [] [] []]; intros H;
    try discriminate H; reflexivity.
Qed.

(** An escaped byte decodes to itself. *)
Lemma form_decode_escaped_char (c : ascii) (r : string) :
  unreserved c = false ->
  form_decode (String "%" (String (hex_at (N.land (N.shiftr (N_of_ascii c) 4) 15))
                             (String (hex_at (N.land (N_of_ascii c) 15)) r)))
  = option_map (String c) (form_decode r).
Proof.
  destruct c as [[] [] [] [] [] [] [] []]; intros H; try discriminate H;
    cbn -[form_decode]; simpl; destruct (form_decode r); reflexivity.
Qed.

Lemma form_decode_all_unreserved (s : string) :
  all_unreserved s = true -> form_decode s = Some s.
Proof.
  induction s as [|c s IH]; [reflexivity|]. cbn [all_unreserved].
  destruct (unreserved c) eqn:U; [|discriminate]. cbn [andb]. intros H.
  rewrite form_decode_unreserved_char by exact U. now rewrite IH.
Qed.

Lemma encoded_alphabet_no_char (sep : ascii) (s : string) :
  unreserved sep = false -> (sep =? "%")%char = false ->
  encoded_alphabet s = true -> no_char sep s = true.
Proof.
  intros U P. induction s as [|c s IH]; simpl; [reflexivity|].
  intros H. apply andb_true_iff in H as [Hc Hs].
  rewrite (IH Hs), andb_true_r.
  destruct (Ascii.eqb_spec c sep) as [->|]; [|reflexivity].
  rewrite U, P in Hc. discriminate.
Qed.

Lemma all_unreserved_encoded_alphabet (s : string) :
  all_unreserved s = true -> encoded_alphabet s = true.
Proof.
  induction s as [|c s IH]; simpl; [reflexivity|].
  intros H. apply andb_true_iff in H as [Hc Hs]. now rewrite Hc, IH.
Qed.

Fixpoint join (sep : ascii) (parts : list string) : string :=
  match parts with
  | [] => EmptyString
  | [a] => a
  | a :: rest => a ++ String sep (join sep rest)
  end.

Lemma split_on_no_char (sep : ascii) (a : string) :
  no_char sep a = true -> split_on sep a = [a].
Proof.
  induction a as [|c a IH]; simpl; [reflexivity|].
  intros H. apply andb_true_iff in H as [Hc Ha].
  apply negb_true_iff in Hc. rewrite Hc, (IH Ha). reflexivity.
Qed.

Lemma split_on_app (sep : ascii) (a b : string) :
  no_char sep a = true -> split_on sep (a ++ String sep b) = a :: split_on sep b.
Proof.
  induction a as [|c a IH]; simpl.
  - intros _. now rewrite Ascii.eqb_refl.
  - intros H. apply andb_true_iff in H as [Hc Ha].
    apply negb_true_iff in Hc. rewrite Hc, (IH Ha). reflexivity.
Qed.

Lemma split_on_join (sep : ascii) (parts : list string) :
  parts <> [] -> Forall (fun p => no_char sep p = true) parts ->
  split_on sep (join sep parts) = parts.
Proof.
  induction parts as [|a rest IH]; intros Hne Hall; [congruence|].
  inversion Hall as [|? ? Ha Hrest]; subst.
  destruct rest as [|b rest].
  - simpl. now apply split_on_no_char.
  - change (join sep (a :: b :: rest)) with (a ++ String sep (join sep (b :: rest))).
    rewrite split_on_app by exact Ha. f_equal. apply IH; [discriminate|exact Hrest].
Qed.

End UrlEncodeMore.

Section UrlEncodeTheorems.
Open Scope string_scope.

(** urlEncode works character by character: encoding a concatenation
    is the concatenation of the encodings. *)
Theorem urlEncode_app (a b : string) :
  urlEncode (a ++ b) = urlEncode a ++ urlEncode b.
Proof.
  induction a as [|c a IH]; [reflexivity|]. cbn [append urlEncode].
  rewrite IH. destruct (unreserved c); reflexivity.
Qed.

(** Every character urlEncode outputs is unreserved or '%'; in particular
    the output never contains '&', '=', '+' or a space. *)
Theorem urlEncode_alphabet (s : string) :
  encoded_alphabet (urlEncode s) = true /\
  no_char "&" (urlEncode s) = true /\ no_char "=" (urlEncode s) = true /\
  no_char "+" (urlEncode s) = true /\ no_char " " (urlEncode s) = true.
Proof.
  assert (A : encoded_alphabet (urlEncode s) = true).
  { induction s as [|c s IH]; [reflexivity|]. cbn [urlEncode].
    destruct (hex_at_unreserved c) as [H1 H2].
    destruct (unreserved c) eqn:U; cbn [encoded_alphabet].
    - now rewrite U, IH.
    - now rewrite H1, H2, IH. }
  repeat split; [exact A| | | |];
    (apply encoded_alphabet_no_char; [reflexivity|reflexivity|exact A]).
Qed.

(** urlEncode leaves a string unchanged exactly when all its characters
    are unreserved, and otherwise lengthens it by two per escaped byte. *)
Theorem urlEncode_length_and_identity (s : string) :
  String.length (urlEncode s) = (String.length s + 2 * reserved_count s)%nat /\
  (urlEncode s = s <-> all_unreserved s = true).
Proof.
  assert (L : String.length (urlEncode s) = (String.length s + 2 * reserved_count s)%nat).
  { induction s as [|c s IH]; [reflexivity|]. cbn [urlEncode reserved_count].
    destruct (unreserved c); cbn [String.length]; rewrite IH; lia. }
  split; [exact L|]. split.
  - intros E. assert (R : reserved_count s = O).
    { rewrite E in L. lia. }
    clear E L. induction s as [|c s IH]; [reflexivity|].
    cbn [reserved_count] in R. cbn [all_unreserved].
    destruct (unreserved c); [|cbn in R; discriminate]. apply IH. exact R.
  - clear L. induction s as [|c s IH]; [reflexivity|]. cbn [all_unreserved urlEncode].
    destruct (unreserved c); cbn [andb]; intros H; [now rewrite (IH H)|discriminate H].
Qed.

(** Round trip: the form decoding a server applies (percent escapes and
    '+') gives back exactly the string that was encoded; so urlEncode is
    injective. *)
Theorem form_decode_urlEncode (s : string) :
  form_decode (urlEncode s) = Some s.
Proof.
  induction s as [|c s IH]; [reflexivity|]. cbn [urlEncode].
  destruct (unreserved c) eqn:U.
  - rewrite form_decode_unreserved_char by exact U. now rewrite IH.
  - rewrite form_decode_escaped_char by exact U. now rewrite IH.
Qed.

(** The body postToServer sends parses back, field by field and in order,
    into the five values it was built from; no value can break the
    key=value&... framing. *)
Theorem parse_form_form_body (nodeName isoUtc tzRegion : string)
    (distance_cm sound_db : float) :
  parse_form (form_body nodeName isoUtc tzRegion distance_cm sound_db) =
  [("node_name", Some nodeName); ("measured_iso", Some isoUtc);
   ("tz_region", Some tzRegion);
   ("distance_cm", Some (String_float2 distance_cm));
   ("sound_db", Some (String_float2 sound_db))].
Proof.
  assert (E : form_body nodeName isoUtc tzRegion distance_cm sound_db =
    join "&" ["node_name=" ++ urlEncode nodeName; "measured_iso=" ++ urlEncode isoUtc;
              "tz_region=" ++ urlEncode tzRegion;
              "distance_cm=" ++ String_float2 distance_cm;
              "sound_db=" ++ String_float2 sound_db]).
  { unfold form_body. cbn [join]. rewrite !string_app_assoc. reflexivity. }
  assert (NA : forall x, no_char "&" (urlEncode x) = true)
    by (intros x; apply urlEncode_alphabet).
  assert (NF : forall x, no_char "&" (String_float2 x) = true).
  { intros x. apply encoded_alphabet_no_char; [reflexivity|reflexivity|].
    apply all_unreserved_encoded_alphabet, String_float2_unreserved. }
  unfold parse_form. rewrite E, split_on_join.
  2: discriminate.
  2: repeat constructor; cbn [append no_char Ascii.eqb Bool.eqb negb andb]; auto.
  cbn [map split_first append Ascii.eqb Bool.eqb andb].
  rewrite !form_decode_urlEncode, !form_decode_all_unreserved
    by apply String_float2_unreserved.
  reflexivity.
Qed.

End UrlEncodeTheorems.

(** ** One pass of loop() *)

Section LoopTheorems.
Open Scope string_scope.

Lemma transmit_outcome (henv : HttpEnv) (tz : string) (who : NodeSel) (iso : string)
    (d s : float) (code0 : Z) (resp0 : string) :
  let body := form_body (if NodeSel_eqb who NODE_ULTRA then nodeUltraName else nodeSoundName)
                iso tz d s in
  transmit henv tz who iso d s code0 resp0 =
  http_begin henv (SERVER_BASE ++ POST_PATH) &&
  (200 <=? post_code (http_post henv body))%Z && (post_code (http_post henv body) <? 300)%Z.
Proof.
  cbv zeta. unfold transmit, postToServer. cbn [negb].
  destruct (http_begin henv (SERVER_BASE ++ POST_PATH)); [|reflexivity].
  cbn [httpCodeOut andb negb].
  set (c := post_code _).
  destruct (0 <? c)%Z eqn:P, (200 <=? c)%Z eqn:Q; try reflexivity.
  apply Z.leb_le in Q. apply Z.ltb_ge in P. lia.
Qed.

(** When no button is accepted, or the time fetch fails, a pass of loop()
    transmits nothing: its outcome does not depend on the network at all. *)
Theorem loop_iter_offline (cfg : TimeConfig) (log10f : float -> float) (tz : string)
    (st : Debounce) (li : LoopIn) :
  fst (check_switch st (li_poll li)) = NODE_NONE \/
  fst (read_time cfg (li_time li) tz) = false ->
  forall henv1 henv2 : HttpEnv,
    loop_iter cfg log10f henv1 tz st li = loop_iter cfg log10f henv2 tz st li /\
    forall ok, fst (loop_iter cfg log10f henv1 tz st li) <> LoopSent ok.
Proof.
  intros H henv1 henv2. unfold loop_iter.
  destruct (check_switch st (li_poll li)) as [who st1]. cbn [fst] in H.
  destruct who; cbn [NodeSel_eqb negb].
  - split; [reflexivity|]. intros ok; discriminate.
  - destruct H as [H|H]; [discriminate|].
    destruct (read_time cfg (li_time li) tz) as [[] iso]; [discriminate|].
    split; [reflexivity|]. intros ok; discriminate.
  - destruct H as [H|H]; [discriminate|].
    destruct (read_time cfg (li_time li) tz) as [[] iso]; [discriminate|].
    split; [reflexivity|]. intros ok; discriminate.
Qed.

Lemma loop_iter_offline_witness :
  fst (check_switch debounce_init (mkPoll false false 1000)) = NODE_NONE /\
  forall henv1 henv2 : HttpEnv,
    loop_iter default_config log10f_small henv1 tzRegion_default debounce_init
      (mkLoopIn (mkPoll false false 1000) (mkEcho 0 0) (fun _ => 0%Z)
         env_clock_1700000000 0 "") =
    loop_iter default_config log10f_small henv2 tzRegion_default debounce_init
      (mkLoopIn (mkPoll false false 1000) (mkEcho 0 0) (fun _ => 0%Z)
         env_clock_1700000000 0 "") /\
    forall ok, fst (loop_iter default_config log10f_small henv1 tzRegion_default
      debounce_init (mkLoopIn (mkPoll false false 1000) (mkEcho 0 0) (fun _ => 0%Z)
         env_clock_1700000000 0 "")) <> LoopSent ok.
Proof.
  split; [reflexivity|].
  apply (loop_iter_offline default_config log10f_small tzRegion_default debounce_init
           (mkLoopIn (mkPoll false false 1000) (mkEcho 0 0) (fun _ => 0%Z)
              env_clock_1700000000 0 "")).
  left. reflexivity.
Defined.

(** An accepted ULTRA press with a resolved time makes exactly one request:
    the body names the ultrasonic node, carries the timestamp, the zone and
    the distance read, and 0.00 for the sound level; the pass succeeds iff
    [https.begin] succeeds and that POST answers 2xx. *)
Theorem loop_iter_ultra_request (cfg : TimeConfig) (log10f : float -> float) (tz : string)
    (st st1 : Debounce) (li : LoopIn) (iso : string) :
  check_switch st (li_poll li) = (NODE_ULTRA, st1) ->
  read_time cfg (li_time li) tz = (true, iso) ->
  let body := form_body nodeUltraName iso tz (read_sensor_1 (li_echo li)) f_0_0 in
  parse_form body =
    [("node_name", Some "Ultrasonic_Sensor"); ("measured_iso", Some iso);
     ("tz_region", Some tz);
     ("distance_cm", Some (String_float2 (read_sensor_1 (li_echo li))));
     ("sound_db", Some "0.00")] /\
  forall henv : HttpEnv,
    loop_iter cfg log10f henv tz st li =
    (LoopSent (http_begin henv (SERVER_BASE ++ POST_PATH) &&
               (200 <=? post_code (http_post henv body))%Z &&
               (post_code (http_post henv body) <? 300)%Z), st1).
Proof.
  intros Hc Ht body. split.
  - unfold body. rewrite parse_form_form_body. reflexivity.
  - intros henv. unfold loop_iter. rewrite Hc. cbn [NodeSel_eqb].
    rewrite Ht. cbn [negb]. f_equal. f_equal. apply transmit_outcome.
Qed.

Lemma loop_iter_ultra_request_witness :
  check_switch debounce_init (mkPoll true false 1000) = (NODE_ULTRA, mkDebounce 1000 0) /\
  read_time default_config env_clock_1700000000 tzRegion_default =
    (true, "2023-11-14T14:13:20") /\
  parse_form (form_body nodeUltraName "2023-11-14T14:13:20" tzRegion_default
                (read_sensor_1 (mkEcho 100 1000)) f_0_0) =
    [("node_name", Some "Ultrasonic_Sensor");
     ("measured_iso", Some "2023-11-14T14:13:20");
     ("tz_region", Some tzRegion_default);
     ("distance_cm", Some (String_float2 (read_sensor_1 (mkEcho 100 1000))));
     ("sound_db", Some "0.00")].
Proof.
  assert (Hc : check_switch debounce_init (mkPoll true false 1000) =
               (NODE_ULTRA, mkDebounce 1000 0)) by reflexivity.
  assert (Ht : read_time default_config env_clock_1700000000 tzRegion_default =
               (true, "2023-11-14T14:13:20")) by (vm_compute; reflexivity).
  split; [exact Hc|]. split; [exact Ht|].
  exact (proj1 (loop_iter_ultra_request default_config log10f_small tzRegion_default
    debounce_init (mkDebounce 1000 0)
    (mkLoopIn (mkPoll true false 1000) (mkEcho 100 1000) (fun _ => 0%Z)
       env_clock_1700000000 0 "") "2023-11-14T14:13:20" Hc Ht)).
Defined.

(** The same for an accepted SOUND press: the body names the microphone
    node, carries 0.00 for the distance and the sound level read. *)
Theorem loop_iter_sound_request (cfg : TimeConfig) (log10f : float -> float) (tz : string)
    (st st1 : Debounce) (li : LoopIn) (iso : string) :
  check_switch st (li_poll li) = (NODE_SOUND, st1) ->
  read_time cfg (li_time li) tz = (true, iso) ->
  let body := form_body nodeSoundName iso tz f_0_0 (read_sensor_2 log10f (li_analog li)) in
  parse_form body =
    [("node_name", Some "Sound_Sensor_MAX4466"); ("measured_iso", Some iso);
     ("tz_region", Some tz); ("distance_cm", Some "0.00");
     ("sound_db", Some (String_float2 (read_sensor_2 log10f (li_analog li))))] /\
  forall henv : HttpEnv,
    loop_iter cfg log10f henv tz st li =
    (LoopSent (http_begin henv (SERVER_BASE ++ POST_PATH) &&
               (200 <=? post_code (http_post henv body))%Z &&
               (post_code (http_post henv body) <? 300)%Z), st1).
Proof.
  intros Hc Ht body. split.
  - unfold body. rewrite parse_form_form_body. reflexivity.
  - intros henv. unfold loop_iter. rewrite Hc. cbn [NodeSel_eqb].
    rewrite Ht. cbn [negb]. f_equal. f_equal. apply transmit_outcome.
Qed.

Lemma loop_iter_sound_request_witness :
  check_switch debounce_init (mkPoll false true 1000) = (NODE_SOUND, mkDebounce 0 1000) /\
  read_time default_config env_clock_1700000000 tzRegion_default =
    (true, "2023-11-14T14:13:20") /\
  parse_form (form_body nodeSoundName "2023-11-14T14:13:20" tzRegion_default f_0_0
                (read_sensor_2 log10f_small (fun _ => 512%Z))) =
    [("node_name", Some "Sound_Sensor_MAX4466");
     ("measured_iso", Some "2023-11-14T14:13:20");
     ("tz_region", Some tzRegion_default); ("distance_cm", Some "0.00");
     ("sound_db", Some (String_float2 (read_sensor_2 log10f_small (fun _ => 512%Z))))].
Proof.
  assert (Hc : check_switch debounce_init (mkPoll false true 1000) =
               (NODE_SOUND, mkDebounce 0 1000)) by reflexivity.
  assert (Ht : read_time default_config env_clock_1700000000 tzRegion_default =
               (true, "2023-11-14T14:13:20")) by (vm_compute; reflexivity).
  split; [exact Hc|]. split; [exact Ht|].
  exact (proj1 (loop_iter_sound_request default_config log10f_small tzRegion_default
    debounce_init (mkDebounce 0 1000)
    (mkLoopIn (mkPoll false true 1000) (mkEcho 0 0) (fun _ => 512%Z)
       env_clock_1700000000 0 "") "2023-11-14T14:13:20" Hc Ht)).
Defined.

End LoopTheorems.

(** ** promptTimeZone *)

Section PromptTheorems.
Open Scope string_scope.

Lemma string_length_app (a b : string) :
  String.length (a ++ b) = (String.length a + String.length b)%nat.
Proof. induction a as [|c a IH]; cbn [append String.length]; [reflexivity|]. now rewrite IH. Qed.

Lemma ltrim_idem (s : string) : ltrim (ltrim s) = ltrim s.
Proof.
  induction s as [|c s IH]; [reflexivity|]. cbn [ltrim].
  destruct (isspace c) eqn:E; [exact IH|]. cbn [ltrim]. now rewrite E.
Qed.

Lemma rtrim_cons (c : ascii) (s : string) :
  rtrim (String c s) =
  match rtrim s with
  | EmptyString => if isspace c then EmptyString else String c EmptyString
  | _ => String c (rtrim s)
  end.
Proof. reflexivity. Qed.

Lemma rtrim_idem (s : string) : rtrim (rtrim s) = rtrim s.
Proof.
  induction s as [|c s IH]; [reflexivity|]. rewrite rtrim_cons.
  destruct (rtrim s) as [|d r] eqn:R.
  - destruct (isspace c) eqn:E; [reflexivity|]. cbn [rtrim]. now rewrite E.
  - rewrite rtrim_cons, IH. reflexivity.
Qed.

(** A string that does not start with whitespace keeps that property
    through [rtrim]. *)
Lemma ltrim_rtrim (s : string) : ltrim s = s -> ltrim (rtrim s) = rtrim s.
Proof.
  destruct s as [|c s]; [reflexivity|]. cbn [ltrim].
  destruct (isspace c) eqn:E.
  - intros H. exfalso.
    assert (L : forall x, (String.length (ltrim x) <= String.length x)%nat).
    { induction x as [|d x IH]; cbn [ltrim]; [reflexivity|].
      destruct (isspace d); cbn [String.length]; lia. }
    specialize (L s). rewrite H in L. cbn [String.length] in L. lia.
  - intros _. cbn [rtrim]. destruct (rtrim s); [rewrite E|]; cbn [ltrim]; now rewrite E.
Qed.

Lemma trim_idem (s : string) : trim (trim s) = trim s.
Proof.
  unfold trim. rewrite ltrim_rtrim by apply ltrim_idem. apply rtrim_idem.
Qed.

Lemma ltrim_length (s : string) : (String.length (ltrim s) <= String.length s)%nat.
Proof.
  induction s as [|c s IH]; cbn [ltrim]; [reflexivity|].
  destruct (isspace c); cbn [String.length]; lia.
Qed.

Lemma rtrim_length (s : string) : (String.length (rtrim s) <= String.length s)%nat.
Proof.
  induction s as [|c s IH]; cbn [rtrim]; [reflexivity|].
  destruct (rtrim s); [destruct (isspace c)|]; cbn [String.length] in *; lia.
Qed.

Lemma no_char_ltrim (sep : ascii) (s : string) :
  no_char sep s = true -> no_char sep (ltrim s) = true.
Proof.
  induction s as [|c s IH]; cbn [ltrim no_char]; [reflexivity|].
  intros H. destruct (isspace c); [|exact H].
  apply IH. apply andb_true_iff in H. apply H.
Qed.

Lemma no_char_rtrim (sep : ascii) (s : string) :
  no_char sep s = true -> no_char sep (rtrim s) = true.
Proof.
  induction s as [|c s IH]; [reflexivity|]. rewrite rtrim_cons. cbn [no_char].
  intros H. apply andb_true_iff in H as [Hc Hs].
  destruct (rtrim s) as [|d r] eqn:R.
  - destruct (isspace c); cbn [no_char]; [reflexivity|]. now rewrite Hc.
  - change (negb (c =? sep)%char && no_char sep (String d r) = true).
    rewrite Hc. now apply IH.
Qed.

Lemma no_char_app (sep : ascii) (a b : string) :
  no_char sep (a ++ b) = no_char sep a && no_char sep b.
Proof.
  induction a as [|c a IH]; cbn [append no_char]; [reflexivity|].
  now rewrite IH, andb_assoc.
Qed.

Lemma ltrim_app_space (s : string) (c : ascii) :
  ltrim s = EmptyString -> isspace c = true -> ltrim (s ++ String c EmptyString) = EmptyString.
Proof.
  induction s as [|d s IH]; cbn [append ltrim].
  - intros _ E. now rewrite E.
  - destruct (isspace d); [exact IH|discriminate].
Qed.

(** The loop in its [k]-th iteration (real time [t0 + 10 k]). *)
Lemma prompt_loop_invariant (fuel k : nat) (t0 : Z) (q : SerialIn) (input : string) :
  (k <= 1000)%nat -> (String.length input <= k)%nat ->
  no_char "013" input = true -> no_char "010" input = true ->
  let r := fst (prompt_loop fuel t0 (t0 + 10 * Z.of_nat k) q input) in
  (String.length r <= 1000)%nat /\ no_char "013" r = true /\ no_char "010" r = true.
Proof.
  revert k q input. induction fuel as [|f IH]; intros k q input Hk Hl H13 H10; cbn zeta.
  - cbn [prompt_loop fst]. repeat split; auto; lia.
  - cbn [prompt_loop].
    rewrite ul_sub_elapsed by (unfold ULONG_MOD; lia).
    destruct (10 * Z.of_nat k <? 10000)%Z eqn:W.
    2: { cbn [fst]. repeat split; auto; lia. }
    apply Z.ltb_lt in W.
    replace (t0 + 10 * Z.of_nat k + 10)%Z with (t0 + 10 * Z.of_nat (S k))%Z by lia.
    destruct q as [|[a c] q'].
    + apply IH; auto; lia.
    + destruct (a <=? t0 + 10 * Z.of_nat k)%Z.
      * destruct (is_eol c) eqn:E.
        -- cbn [fst]. repeat split; auto; lia.
        -- unfold is_eol in E. apply orb_false_iff in E as [E13 E10].
           apply IH.
           ++ lia.
           ++ rewrite string_length_app. cbn [String.length]. lia.
           ++ rewrite no_char_app, H13. cbn [no_char]. now rewrite E13.
           ++ rewrite no_char_app, H10. cbn [no_char]. now rewrite E10.
      * apply IH; auto; lia.
Qed.

(** promptTimeZone either keeps the previous zone or sets a nonempty one
    of at most 1000 bytes (one byte per 10 ms poll of the 10 s window),
    without CR or LF and with no leading or trailing whitespace. *)
Theorem promptTimeZone_result (tz : string) (q : SerialIn) (t0 : Z) :
  let r := promptTimeZone tz q t0 in
  r = tz \/
  (r <> EmptyString /\ (String.length r <= 1000)%nat /\
   no_char "013" r = true /\ no_char "010" r = true /\ trim r = r).
Proof.
  cbv zeta. unfold promptTimeZone.
  pose proof (prompt_loop_invariant (loop_fuel 10000 10) 0 t0 q EmptyString) as Inv.
  replace (t0 + 10 * Z.of_nat 0)%Z with t0 in Inv by lia.
  destruct (prompt_loop (loop_fuel 10000 10) t0 t0 q EmptyString) as [input rest].
  cbn [fst] in Inv. destruct Inv as [L [N13 N10]]; try reflexivity; try lia.
  destruct (0 <? String.length (trim input))%nat eqn:P; [right|left; reflexivity].
  apply Nat.ltb_lt in P. unfold trim in *. repeat split.
  - intros E. rewrite E in P. cbn in P. lia.
  - pose proof (ltrim_length input). pose proof (rtrim_length (ltrim input)). lia.
  - now apply no_char_rtrim, no_char_ltrim.
  - now apply no_char_rtrim, no_char_ltrim.
  - apply (trim_idem input).
Qed.

(** Typing nothing, or only whitespace (ENTER alone included), keeps the
    previous zone. *)
Theorem promptTimeZone_blank (tz : string) (q : SerialIn) (t0 : Z) :
  Forall (fun ac => isspace (snd ac) = true) q ->
  promptTimeZone tz q t0 = tz.
Proof.
  intros Hq. unfold promptTimeZone.
  assert (Inv : forall fuel t q input, Forall (fun ac => isspace (snd ac) = true) q ->
            ltrim input = EmptyString ->
            ltrim (fst (prompt_loop fuel t0 t q input)) = EmptyString).
  { induction fuel as [|f IH]; intros t q' input Hq' Hi; cbn [prompt_loop]; [exact Hi|].
    destruct (ul_sub (millis t) (millis t0) <? 10000)%Z; [|exact Hi].
    destruct q' as [|[a c] q'']; [now apply IH|].
    inversion Hq' as [|? ? Hc Hq'']; subst. cbn [snd] in Hc.
    destruct (a <=? t)%Z; [|now apply IH].
    destruct (is_eol c); [exact Hi|].
    apply IH; [exact Hq''|]. now apply ltrim_app_space. }
  specialize (Inv (loop_fuel 10000 10) t0 q EmptyString Hq eq_refl).
  destruct (prompt_loop (loop_fuel 10000 10) t0 t0 q EmptyString) as [input rest].
  cbn [fst] in Inv. unfold trim. rewrite Inv. reflexivity.
Qed.

Lemma promptTimeZone_blank_witness :
  Forall (fun ac => isspace (snd ac) = true) [(120%Z, " "%char); (300%Z, "013"%char)] /\
  promptTimeZone tzRegion_default [(120%Z, " "%char); (300%Z, "013"%char)] 0 =
    tzRegion_default.
Proof.
  assert (H : Forall (fun ac => isspace (snd ac) = true)
                [(120%Z, " "%char); (300%Z, "013"%char)])
    by (repeat constructor).
  split; [exact H|]. exact (promptTimeZone_blank tzRegion_default _ 0 H).
Defined.

(** A line already waiting in the receive buffer when the prompt starts,
    shorter than 1000 bytes and ended by CR or LF, is read whole: the zone
    becomes the trimmed line, or stays as it was if the line is blank. *)
Theorem promptTimeZone_buffered_line (tz s : string) (eol : ascii) (a t0 : Z) :
  (a <= t0)%Z -> is_eol eol = true ->
  no_char "013" s = true -> no_char "010" s = true ->
  (String.length s < 1000)%nat ->
  promptTimeZone tz ((map (fun c => (a, c)) (list_ascii_of_string s) ++ [(a, eol)])%list) t0 =
  if (0 <? String.length (trim s))%nat then trim s else tz.
Proof.
  intros Ha He H13 H10 Hs. unfold promptTimeZone.
  assert (Loop : forall s' (k fuel : nat) input,
            (k + String.length s' < 1000)%nat -> (String.length s' < fuel)%nat ->
            no_char "013" s' = true -> no_char "010" s' = true ->
            fst (prompt_loop fuel t0 (t0 + 10 * Z.of_nat k)
                   ((map (fun c => (a, c)) (list_ascii_of_string s') ++ [(a, eol)])%list) input)
            = input ++ s').
  { induction s' as [|c s' IH]; intros k fuel input Hk Hf N13 N10;
      (destruct fuel as [|f]; [cbn [String.length] in Hf; lia|]); cbn [prompt_loop].
    - rewrite ul_sub_elapsed by (unfold ULONG_MOD; cbn [String.length] in Hk; lia).
      cbn [String.length] in Hk.
      destruct (10 * Z.of_nat k <? 10000)%Z eqn:W; [|apply Z.ltb_ge in W; lia].
      cbn [list_ascii_of_string map app].
      destruct (a <=? t0 + 10 * Z.of_nat k)%Z eqn:A; [|apply Z.leb_gt in A; lia].
      rewrite He. cbn [fst]. now rewrite string_append_empty_r.
    - cbn [String.length] in Hk, Hf. cbn [no_char] in N13, N10.
      apply andb_true_iff in N13 as [C13 N13]. apply andb_true_iff in N10 as [C10 N10].
      rewrite ul_sub_elapsed by (unfold ULONG_MOD; lia).
      destruct (10 * Z.of_nat k <? 10000)%Z eqn:W; [|apply Z.ltb_ge in W; lia].
      cbn [list_ascii_of_string map app].
      destruct (a <=? t0 + 10 * Z.of_nat k)%Z eqn:A; [|apply Z.leb_gt in A; lia].
      assert (E : is_eol c = false).
      { unfold is_eol. apply negb_true_iff in C13, C10. now rewrite C13, C10. }
      rewrite E.
      replace (t0 + 10 * Z.of_nat k + 10)%Z with (t0 + 10 * Z.of_nat (S k))%Z by lia.
      rewrite IH by (auto; lia).
      rewrite string_app_assoc. reflexivity. }
  specialize (Loop s 0%nat (loop_fuel 10000 10) EmptyString).
  replace (t0 + 10 * Z.of_nat 0)%Z with t0 in Loop by lia.
  assert (Lp := Loop ltac:(lia) ltac:(unfold loop_fuel; cbn; lia) H13 H10).
  destruct (prompt_loop (loop_fuel 10000 10) t0 t0 _ EmptyString) as [input rest].
  cbn [fst append] in Lp. now rewrite Lp.
Qed.

Lemma promptTimeZone_buffered_line_witness :
  (0 <= 0)%Z /\ is_eol "010" = true /\ no_char "013" " Europe/Paris " = true /\
  no_char "010" " Europe/Paris " = true /\
  (String.length " Europe/Paris " < 1000)%nat /\
  promptTimeZone tzRegion_default
    ((map (fun c => (0%Z, c)) (list_ascii_of_string " Europe/Paris ") ++ [(0%Z, "010"%char)])%list) 0
  = "Europe/Paris".
Proof.
  split; [lia|]. split; [reflexivity|]. split; [reflexivity|].
  split; [reflexivity|]. split; [cbn; lia|].
  refine (eq_trans (promptTimeZone_buffered_line tzRegion_default " Europe/Paris " "010"
                      0 0 _ _ _ _ _) _);
    [lia|reflexivity|reflexivity|reflexivity|cbn; lia|vm_compute; reflexivity].
Defined.

End PromptTheorems.

(** ** The sensor readers, beyond single readings *)

Section SensorMore.

Lemma Qlt_of_Qle_bool (a b : Q) : Qle_bool b a = false -> (a < b)%Q.
Proof.
  intros H. apply Qnot_le_lt. intros Hle. apply Qle_bool_iff in Hle. congruence.
Qed.

(** Consecutive durations give increasing distances. *)
Lemma distance_step_table :
  forallb (fun D =>
    match float_value (f_div (f_mul (f_of_Z D) f_0_0343) f_2_0),
          float_value (f_div (f_mul (f_of_Z (D + 1)) f_0_0343) f_2_0) with
    | Some a, Some b => negb (Qle_bool b a)
    | _, _ => false
    end) (zseq 1 (Z.to_nat 29999)) = true.
Proof. vm_compute. reflexivity. Qed.

Lemma distance_strict_mono (n : nat) (D : Z) :
  1 <= D -> D + Z.of_nat (S n) <= 30000 ->
  exists a b : Q,
    float_value (f_div (f_mul (f_of_Z D) f_0_0343) f_2_0) = Some a /\
    float_value (f_div (f_mul (f_of_Z (D + Z.of_nat (S n))) f_0_0343) f_2_0) = Some b /\
    (a < b)%Q.
Proof.
  assert (Step : forall D, 1 <= D < 30000 -> exists a b : Q,
    float_value (f_div (f_mul (f_of_Z D) f_0_0343) f_2_0) = Some a /\
    float_value (f_div (f_mul (f_of_Z (D + 1)) f_0_0343) f_2_0) = Some b /\ (a < b)%Q).
  { intros D' HD.
    assert (I : In D' (zseq 1 (Z.to_nat 29999)))
      by (apply in_zseq; rewrite Z2Nat.id by lia; lia).
    pose proof (proj1 (forallb_forall _ _) distance_step_table D' I) as T.
    cbv beta in T.
    destruct (float_value (f_div (f_mul (f_of_Z D') f_0_0343) f_2_0)) as [a|];
      [|discriminate].
    destruct (float_value (f_div (f_mul (f_of_Z (D' + 1)) f_0_0343) f_2_0)) as [b|];
      [|discriminate].
    apply negb_true_iff in T. exists a, b. split; [reflexivity|]. split; [reflexivity|].
    now apply Qlt_of_Qle_bool. }
  revert D. induction n as [|n IH]; intros D H1 H2.
  - apply Step. lia.
  - destruct (IH D H1 ltac:(lia)) as [a [b [Ha [Hb Hab]]]].
    destruct (Step (D + Z.of_nat (S n)) ltac:(lia)) as [b' [c [Hb' [Hc Hbc]]]].
    rewrite Hb in Hb'. injection Hb' as <-.
    exists a, c. split; [exact Ha|]. split.
    + replace (D + Z.of_nat (S (S n))) with (D + Z.of_nat (S n) + 1) by lia. exact Hc.
    + eapply Qlt_trans; eassumption.
Qed.

(** read_sensor_1 is strictly increasing in the echo width: of two echoes
    that both end within the 30 ms timeout, the longer one gives a strictly
    larger (finite) distance; distinct widths never collapse to one float. *)
Theorem read_sensor_1_strict_mono (e1 e2 : Echo) :
  0 <= echo_rise e1 -> 0 < echo_width e1 -> echo_rise e1 + echo_width e1 <= 30000 ->
  0 <= echo_rise e2 -> 0 < echo_width e2 -> echo_rise e2 + echo_width e2 <= 30000 ->
  echo_width e1 < echo_width e2 ->
  exists q1 q2 : Q,
    float_value (read_sensor_1 e1) = Some q1 /\
    float_value (read_sensor_1 e2) = Some q2 /\ (q1 < q2)%Q.
Proof.
  intros R1 W1 T1 R2 W2 T2 Lt.
  assert (P : forall e, 0 <= echo_rise e -> 0 < echo_width e ->
                echo_rise e + echo_width e <= 30000 -> pulseIn e 30000 = echo_width e).
  { intros e Hr Hw Ht. unfold pulseIn.
    rewrite (proj2 (Z.leb_le _ _) Hr), (proj2 (Z.ltb_lt _ _) Hw),
      (proj2 (Z.leb_le _ _) Ht). reflexivity. }
  unfold read_sensor_1. rewrite (P e1 R1 W1 T1), (P e2 R2 W2 T2).
  destruct (Z.eqb_spec (echo_width e1) 0) as [|_]; [lia|].
  destruct (Z.eqb_spec (echo_width e2) 0) as [|_]; [lia|].
  destruct (distance_strict_mono (Z.to_nat (echo_width e2 - echo_width e1 - 1))
              (echo_width e1) ltac:(lia) ltac:(lia)) as [a [b [Ha [Hb Hab]]]].
  replace (echo_width e1 + Z.of_nat (S (Z.to_nat (echo_width e2 - echo_width e1 - 1))))
    with (echo_width e2) in Hb by lia.
  exists a, b. auto.
Qed.

Lemma read_sensor_1_strict_mono_witness :
  (0 <= 10 /\ 0 < 1000 /\ 10 + 1000 <= 30000 /\
   0 <= 10 /\ 0 < 1001 /\ 10 + 1001 <= 30000 /\ 1000 < 1001) /\
  exists q1 q2 : Q,
    float_value (read_sensor_1 (mkEcho 10 1000)) = Some q1 /\
    float_value (read_sensor_1 (mkEcho 10 1001)) = Some q2 /\ (q1 < q2)%Q.
Proof.
  split; [lia|].
  apply (read_sensor_1_strict_mono (mkEcho 10 1000) (mkEcho 10 1001)); cbn; lia.
Defined.

Lemma fold_left_const_sum (v : Z) (l : list nat) (a : Z) :
  fold_left (fun acc (_ : nat) => acc + v) l a = a + Z.of_nat (List.length l) * v.
Proof.
  revert a. induction l as [|x l IH]; intros a; cbn [fold_left List.length]; [lia|].
  rewrite IH. lia.
Qed.

(** The level for each integer average of the ADC range. *)
Lemma level_table :
  forallb (fun v =>
    match f_max (f_abs (f_sub (f_div (f_of_Z (200 * v)) (f_of_Z 200)) f_512_0)) f_1_0,
          f_of_Z (Z.max (Z.abs (v - 512)) 1) with
    | S754_finite s m e, S754_finite s' m' e' => Bool.eqb s s' && Pos.eqb m m' && Z.eqb e e'
    | _, _ => false
    end) (zseq 0 1024) = true.
Proof. vm_compute. reflexivity. Qed.

(** When the 200 ADC samples average to a whole number [v] (all samples
    equal, for instance), the average, the deviation from mid-rail and the
    floor at 1 are all computed exactly: [log10f] receives [max(|v - 512|, 1)]. *)
Theorem read_sensor_2_integer_average (log10f : float -> float) (analog : nat -> Z) (v : Z) :
  0 <= v <= 1023 ->
  fold_left (fun acc i => acc + analog i) (seq 0 200) 0 = 200 * v ->
  read_sensor_2 log10f analog =
    let db := f_mul f_20_0 (log10f (f_of_Z (Z.max (Z.abs (v - 512)) 1))) in
    if negb (f_isfinite db) then f_0_0 else db.
Proof.
  intros Hv Hsum.
  assert (L : f_max (f_abs (f_sub (f_div (f_of_Z (200 * v)) (f_of_Z 200)) f_512_0)) f_1_0
              = f_of_Z (Z.max (Z.abs (v - 512)) 1)).
  { assert (I : In v (zseq 0 1024)) by (apply in_zseq; cbn; lia).
    pose proof (proj1 (forallb_forall _ _) level_table v I) as T. cbv beta in T.
    destruct (f_max _ f_1_0) as [| | |s m e]; try discriminate.
    destruct (f_of_Z (Z.max (Z.abs (v - 512)) 1)) as [| | |s' m' e']; try discriminate.
    apply andb_true_iff in T as [T Te]. apply andb_true_iff in T as [Ts Tm].
    apply Bool.eqb_prop in Ts. apply Pos.eqb_eq in Tm. apply Z.eqb_eq in Te.
    now subst. }
  unfold read_sensor_2. cbv zeta. rewrite Hsum.
  change (Z.of_nat 200) with 200. rewrite L. reflexivity.
Qed.

Lemma read_sensor_2_integer_average_witness :
  (0 <= 300 <= 1023 /\
   fold_left (fun acc i => acc + (fun _ : nat => 300) i) (seq 0 200) 0 = 200 * 300) /\
  read_sensor_2 log10f_small (fun _ => 300) =
    (let db := f_mul f_20_0 (log10f_small (f_of_Z (Z.max (Z.abs (300 - 512)) 1))) in
     if negb (f_isfinite db) then f_0_0 else db).
Proof.
  assert (H : fold_left (fun acc i => acc + (fun _ : nat => 300) i) (seq 0 200) 0
              = 200 * 300) by (rewrite fold_left_const_sum; reflexivity).
  split; [split; [lia|exact H]|].
  exact (read_sensor_2_integer_average log10f_small (fun _ => 300) 300 ltac:(lia) H).
Defined.

End SensorMore.

(** ** Led and LEDBLINK *)

Section LedTheorems.

Lemma blink_run_level (l : Led) (n : nat) (t x : Z) (g : Gpio) :
  pin_level g (pin l) = LOW -> x < t + 1100 * Z.of_nat n ->
  pin_level (blink_run n l t x g) (pin l) = (t <=? x) && ((x - t) mod 1100 <? 100).
Proof.
  revert t g. induction n as [|n IH]; intros t g Hg Hx.
  { cbn [blink_run]. rewrite Hg. destruct (Z.leb_spec t x); [lia|reflexivity]. }
  cbn [blink_run].
  destruct (Z.ltb_spec x t) as [Lt|Ge].
  - rewrite Hg. destruct (Z.leb_spec t x); [lia|reflexivity].
  - rewrite (proj2 (Z.leb_le t x) Ge). cbn [andb].
    destruct (Z.ltb_spec x (t + 100)) as [Lt1|Ge1].
    + unfold Led_on, digitalWrite, fn_upd. cbn [pin_level]. rewrite Z.eqb_refl.
      rewrite Z.mod_small by lia. symmetry. apply Z.ltb_lt. lia.
    + destruct (Z.ltb_spec x (t + 1100)) as [Lt2|Ge2].
      * destruct n as [|n'].
        -- cbn [blink_run]. unfold Led_off, Led_on, digitalWrite, fn_upd. cbn [pin_level].
           rewrite Z.eqb_refl. rewrite Z.mod_small by lia. symmetry. apply Z.ltb_ge. lia.
        -- cbn [blink_run]. rewrite (proj2 (Z.ltb_lt x (t + 1100)) Lt2).
           unfold Led_off, Led_on, digitalWrite, fn_upd. cbn [pin_level].
           rewrite Z.eqb_refl. rewrite Z.mod_small by lia. symmetry. apply Z.ltb_ge. lia.
      * rewrite IH.
        -- rewrite (proj2 (Z.leb_le (t + 1100) x) Ge2). cbn [andb].
           replace (x - t) with (x - (t + 1100) + 1 * 1100) by lia.
           rewrite Z.mod_add by lia. reflexivity.
        -- unfold Led_off, Led_on, digitalWrite, fn_upd. cbn [pin_level].
           now rewrite Z.eqb_refl.
        -- lia.
Qed.

(** The Led constructor leaves its pin an output at LOW and touches no
    other pin; the blink loop then keeps the LED lit exactly during the
    first 100 ms of each 1100 ms period counted from the first call of
    [loop()], and off before it. *)
Theorem Led_blink_schedule (p : Z) (g : Gpio) (n : nat) (t0 x : Z) :
  x < t0 + 1100 * Z.of_nat n ->
  let '(l, g0) := Led_new p g in
  pin l = p mod 256 /\
  pin_mode g0 (pin l) = PM_OUTPUT /\ pin_level g0 (pin l) = LOW /\
  (forall q, q <> pin l -> pin_mode g0 q = pin_mode g q /\ pin_level g0 q = pin_level g q) /\
  pin_level (blink_run n l t0 x g0) (pin l) = (t0 <=? x) && ((x - t0) mod 1100 <? 100).
Proof.
  intros Hx. unfold Led_new. cbn zeta.
  assert (L0 : pin_level (Led_init (mkLed (p mod 256)) g) (p mod 256) = LOW).
  { unfold Led_init, Led_off, pinMode, digitalWrite, fn_upd. cbn. now rewrite Z.eqb_refl. }
  split; [reflexivity|]. split.
  { unfold Led_init, Led_off, pinMode, digitalWrite, fn_upd. cbn. now rewrite Z.eqb_refl. }
  split; [exact L0|]. split.
  - intros q Hq. cbn [pin] in Hq.
    unfold Led_init, Led_off, pinMode, digitalWrite, fn_upd. cbn.
    rewrite (proj2 (Z.eqb_neq q (p mod 256)) Hq). split; reflexivity.
  - apply (blink_run_level (mkLed (p mod 256))); assumption.
Qed.

Lemma Led_blink_schedule_witness :
  1050 < 0 + 1100 * Z.of_nat 3 /\
  pin_level (blink_run 3 (mkLed D6) 0 1050 (snd (Led_new D6 (mkGpio (fun _ => PM_INPUT) (fun _ => HIGH))))) D6
    = false.
Proof.
  split; [cbn; lia|].
  pose proof (Led_blink_schedule D6 (mkGpio (fun _ => PM_INPUT) (fun _ => HIGH)) 3 0 1050
                ltac:(cbn; lia)) as H.
  cbn [Led_new snd] in *. destruct H as [_ [_ [_ [_ H]]]].
  exact H.
Defined.

End LedTheorems.

(** ** The timestamp getTimeIsoUtc writes *)

Section IsoShape.
Open Scope string_scope.

Lemma civil_from_days_doe (days : Z) :
  civil_from_days days =
  let z := days + 719468 in
  let '(yc, m, d) := civil_of_doe (z mod 146097) in (yc + z / 146097 * 400, m, d).
Proof.
  unfold civil_from_days, civil_of_doe. cbv zeta.
  replace ((days + 719468) mod 146097)
    with (days + 719468 - (days + 719468) / 146097 * 146097)
    by (rewrite Z.mod_eq by lia; lia).
  set (doe := days + 719468 - (days + 719468) / 146097 * 146097).
  set (era := (days + 719468) / 146097).
  set (yoe := (doe - doe / 1460 + doe / 36524 - doe / 146096) / 365).
  destruct (_ <=? 2)%Z; f_equal; f_equal; lia.
Qed.

Lemma civil_of_doe_table :
  forallb (fun doe =>
    let '(yc, m, d) := civil_of_doe doe in
    (1 <=? m) && (m <=? 12) && (1 <=? d) && (d <=? 31) && (0 <=? yc) && (yc <=? 400) &&
    ((146036 <? doe) || (yc <=? 399)))%Z (zseq 0 (Z.to_nat 146097)) = true.
Proof. vm_compute. reflexivity. Qed.

(** newlib's [gmtime] fields stay in their ranges, with a four-digit year,
    for every time from 1970 to the end of 9999 (the year is at least 1600
    here: the era of day 0 starts in 1600). *)
Lemma gmtime_ranges (t : Z) :
  (0 <= t < 253402300800)%Z ->
  let r := gmtime t in
  (1600 <= tm_year r + 1900 <= 9999)%Z /\ (0 <= tm_mon r <= 11)%Z /\
  (1 <= tm_mday r <= 31)%Z /\ (0 <= tm_hour r <= 23)%Z /\
  (0 <= tm_min r <= 59)%Z /\ (0 <= tm_sec r <= 59)%Z.
Proof.
  intros Ht. unfold gmtime. rewrite civil_from_days_doe. cbv zeta.
  set (z := t / 86400 + 719468).
  assert (A1 : (0 <= t / 86400)%Z) by (apply Z.div_pos; lia).
  assert (A2 : (t / 86400 < 2932897)%Z) by (apply Z.div_lt_upper_bound; lia).
  assert (Hz : (719468 <= z <= 3652364)%Z) by (unfold z; lia).
  assert (Hd : (0 <= z mod 146097 < 146097)%Z) by (apply Z.mod_pos_bound; lia).
  assert (I : In (z mod 146097) (zseq 0 (Z.to_nat 146097)))
    by (apply in_zseq; rewrite Z2Nat.id by lia; lia).
  pose proof (proj1 (forallb_forall _ _) civil_of_doe_table _ I) as T. cbv beta in T.
  assert (He : (4 <= z / 146097 <= 24)%Z).
  { split; [apply Z.div_le_lower_bound; lia|].
    assert (z / 146097 < 25)%Z by (apply Z.div_lt_upper_bound; lia). lia. }
  assert (H24 : z / 146097 = 24 -> (z mod 146097 <= 146036)%Z).
  { intros E. pose proof (Z.div_mod z 146097 ltac:(lia)). lia. }
  destruct (civil_of_doe (z mod 146097)) as [[yc m] d].
  repeat rewrite andb_true_iff in T.
  destruct T as [[[[[[T1 T2] T3] T4] T5] T6] T7].
  apply Z.leb_le in T1, T2, T3, T4, T5, T6.
  assert (Sec : (0 <= t mod 86400 < 86400)%Z) by (apply Z.mod_pos_bound; lia).
  cbn [tm_year tm_mon tm_mday tm_hour tm_min tm_sec].
  repeat split; try lia.
  - apply Z.div_pos; lia.
  - assert (t mod 86400 / 3600 < 24)%Z by (apply Z.div_lt_upper_bound; lia). lia.
  - apply Z.div_pos; [apply Z.mod_pos_bound|]; lia.
  - pose proof (Z.mod_pos_bound (t mod 86400) 3600 ltac:(lia)).
    assert ((t mod 86400) mod 3600 / 60 < 60)%Z by (apply Z.div_lt_upper_bound; lia). lia.
  - apply Z.mod_pos_bound; lia.
  - pose proof (Z.mod_pos_bound (t mod 86400) 60 ltac:(lia)). lia.
Qed.

Lemma matches_pattern_app (p1 p2 s1 s2 : string) :
  matches_pattern p1 s1 = true -> matches_pattern p2 s2 = true ->
  matches_pattern (p1 ++ p2) (s1 ++ s2) = true.
Proof.
  revert s1. induction p1 as [|pc p1 IH]; intros s1 H1 H2;
    destruct s1 as [|c s1]; try discriminate; [exact H2|].
  cbn [append matches_pattern] in *. apply andb_true_iff in H1 as [Hc H1].
  rewrite Hc. cbn [andb]. now apply IH.
Qed.

Lemma matches_pattern_length (p s : string) :
  matches_pattern p s = true -> String.length s = String.length p.
Proof.
  revert s. induction p as [|pc p IH]; intros s H; destruct s as [|c s];
    try discriminate; [reflexivity|].
  cbn [matches_pattern] in H. apply andb_true_iff in H as [_ H].
  cbn [String.length]. now rewrite (IH s H).
Qed.

Lemma dec_pad2_table :
  forallb (fun n => matches_pattern "dd" (dec_pad 2 (Z.to_N n))) (zseq 0 100) = true.
Proof. vm_compute. reflexivity. Qed.

Lemma dec_pad4_table :
  forallb (fun n => matches_pattern "dddd" (dec_pad 4 (Z.to_N n)))
    (zseq 1000 (Z.to_nat 9000)) = true.
Proof. vm_compute. reflexivity. Qed.

Lemma dec_pad2_shape (n : Z) :
  (0 <= n < 100)%Z -> matches_pattern "dd" (dec_pad 2 (Z.to_N n)) = true.
Proof.
  intros H. apply (proj1 (forallb_forall _ _) dec_pad2_table).
  apply in_zseq. cbn. lia.
Qed.

Lemma dec_pad4_shape (n : Z) :
  (1000 <= n < 10000)%Z -> matches_pattern "dddd" (dec_pad 4 (Z.to_N n)) = true.
Proof.
  intros H. apply (proj1 (forallb_forall _ _) dec_pad4_table).
  apply in_zseq. rewrite Z2Nat.id by lia. lia.
Qed.

Lemma strftime_iso_shape (t : Z) :
  (0 <= t < 253402300800)%Z -> matches_pattern iso_pattern (strftime_iso (gmtime t)) = true.
Proof.
  intros Ht. destruct (gmtime_ranges t Ht) as [Y [Mo [D [H [Mi S]]]]].
  unfold strftime_iso.
  change iso_pattern with
    ("dddd" ++ "-" ++ "dd" ++ "-" ++ "dd" ++ "T" ++ "dd" ++ ":" ++ "dd" ++ ":" ++ "dd").
  repeat apply matches_pattern_app;
    first [ apply dec_pad4_shape; lia | apply dec_pad2_shape; lia | reflexivity ].
Qed.

(** Whenever the clock reads a time before year 10000 (after the hour
    offset), a successful getTimeIsoUtc writes "YYYY-MM-DDTHH:MM:SS" with
    decimal digits, plus "Z" when [APPEND_Z] is set: 19 or 20 characters,
    which [strftime] fits in [buf[32]] with its terminating NUL. *)
Theorem getTimeIsoUtc_shape (cfg : TimeConfig) (env : TimeEnv) (tzRegion s : string) :
  (LONG_MIN <= NTP_ADD_HOURS cfg * 3600 <= LONG_MAX)%Z ->
  (forall t, MIN_VALID < clock env t ->
     0 <= clock env t + NTP_ADD_HOURS cfg * 3600 < 253402300800)%Z ->
  getTimeIsoUtc cfg env tzRegion = (true, s) ->
  matches_pattern (iso_pattern ++ (if APPEND_Z cfg then "Z" else "")) s = true /\
  (String.length s < 32)%nat.
Proof.
  intros Hr Hc. unfold getTimeIsoUtc.
  destruct (ensureWifi env WIFI_TIMEOUT (t_start env)) as [tw|]; [|discriminate].
  set (now := sntp_wait env _ tw tw 0).
  destruct (Z.leb_spec now MIN_VALID) as [Hle|Hgt]; [discriminate|].
  rewrite long_wrap_small by exact Hr.
  assert (Hnow : exists t', now = clock env t').
  { destruct (sntp_wait_reading env (loop_fuel SNTP_TIMEOUT SNTP_POLL) tw tw 0)
      as [E|E]; [|exact E].
    exfalso. unfold now in Hgt. rewrite E in Hgt. unfold MIN_VALID in Hgt. lia. }
  destruct Hnow as [t' Et]. rewrite Et in Hgt.
  specialize (Hc t' Hgt). rewrite <- Et in Hc.
  intros E. pose proof (f_equal snd E) as Es. cbn [snd] in Es. subst s.
  pose proof (strftime_iso_shape _ Hc) as Sh.
  assert (M : matches_pattern (iso_pattern ++ (if APPEND_Z cfg then "Z" else ""))
    (if APPEND_Z cfg then strftime_iso (gmtime (now + NTP_ADD_HOURS cfg * 3600)) ++ "Z"
     else strftime_iso (gmtime (now + NTP_ADD_HOURS cfg * 3600))) = true).
  { destruct (APPEND_Z cfg).
    - now apply matches_pattern_app.
    - rewrite string_append_empty_r. exact Sh. }
  split; [exact M|].
  rewrite (matches_pattern_length _ _ M).
  destruct (APPEND_Z cfg); cbn; lia.
Qed.

Lemma getTimeIsoUtc_shape_witness :
  (LONG_MIN <= NTP_ADD_HOURS default_config * 3600 <= LONG_MAX)%Z /\
  (forall t, MIN_VALID < clock env_clock_1700000000 t ->
     0 <= clock env_clock_1700000000 t + NTP_ADD_HOURS default_config * 3600
       < 253402300800)%Z /\
  getTimeIsoUtc default_config env_clock_1700000000 "UTC" = (true, "2023-11-14T14:13:20") /\
  matches_pattern (iso_pattern ++ "") "2023-11-14T14:13:20" = true /\
  (String.length "2023-11-14T14:13:20" < 32)%nat.
Proof.
  assert (H1 : (LONG_MIN <= NTP_ADD_HOURS default_config * 3600 <= LONG_MAX)%Z)
    by (vm_compute; split; discriminate).
  assert (H2 : forall t, (MIN_VALID < clock env_clock_1700000000 t ->
     0 <= clock env_clock_1700000000 t + NTP_ADD_HOURS default_config * 3600
       < 253402300800)%Z) by (intros t _; cbn; lia).
  assert (H3 : getTimeIsoUtc default_config env_clock_1700000000 "UTC" =
               (true, "2023-11-14T14:13:20")) by (vm_compute; reflexivity).
  split; [exact H1|]. split; [exact H2|]. split; [exact H3|].
  exact (getTimeIsoUtc_shape default_config env_clock_1700000000 "UTC" _ H1 H2 H3).
Defined.

End IsoShape.

(** ** Debounce: no press is lost once the window has passed *)

Section DebounceMore.

(** A button held (or pressed again) more than 250 ms after its last
    accepted press is accepted at the next poll, also when [millis()] has
    wrapped around 2^32 in between, as long as less than 2^32 ms (about
    49.7 days) have passed. Only the distance button, which [check_switch]
    tests first, can take the poll instead of the sound button. *)
Theorem check_switch_fires_after_window (s : Signal) (st : Debounce) (p : Poll) (t1 : Z) :
  last_fired s st = millis t1 ->
  t1 + DEBOUNCE < poll_time p < t1 + ULONG_MOD ->
  pressed s p = true ->
  fst (check_switch st p) = request_of s \/ fst (check_switch st p) = NODE_ULTRA.
Proof.
  intros Hl Ht Hp.
  assert (Hs : ul_sub (millis (poll_time p)) (last_fired s st) = poll_time p - t1)
    by (rewrite Hl; apply ul_sub_millis_small; unfold DEBOUNCE, ULONG_MOD in *; lia).
  assert (W : (DEBOUNCE <? poll_time p - t1) = true)
    by (apply Z.ltb_lt; unfold DEBOUNCE in *; lia).
  unfold check_switch. destruct s; cbn [pressed last_fired request_of] in *.
  - rewrite Hp, Hs, W. left. reflexivity.
  - destruct (ultraPressed p && _); [right; reflexivity|].
    rewrite Hp, Hs, W. left. reflexivity.
Qed.

Lemma check_switch_fires_after_window_witness :
  last_fired SigSound (mkDebounce 0 (millis (ULONG_MOD - 100))) = millis (ULONG_MOD - 100) /\
  ULONG_MOD - 100 + DEBOUNCE < poll_time (mkPoll false true (ULONG_MOD + 200))
    < ULONG_MOD - 100 + ULONG_MOD /\
  pressed SigSound (mkPoll false true (ULONG_MOD + 200)) = true /\
  fst (check_switch (mkDebounce 0 (millis (ULONG_MOD - 100))) (mkPoll false true (ULONG_MOD + 200)))
    = NODE_SOUND.
Proof.
  assert (H1 : last_fired SigSound (mkDebounce 0 (millis (ULONG_MOD - 100)))
               = millis (ULONG_MOD - 100)) by reflexivity.
  assert (H2 : ULONG_MOD - 100 + DEBOUNCE < poll_time (mkPoll false true (ULONG_MOD + 200))
               < ULONG_MOD - 100 + ULONG_MOD) by (cbn; unfold DEBOUNCE, ULONG_MOD; lia).
  split; [exact H1|]. split; [exact H2|]. split; [reflexivity|].
  destruct (check_switch_fires_after_window SigSound _ _ _ H1 H2 eq_refl) as [E|E];
    [exact E|vm_compute in E; discriminate E].
Defined.

End DebounceMore.
